(** * wxdash: the zip-code weather lookup of [main.go]

    A shallow embedding of the lookup pipeline of [main.go]
    ([getJSONData], [latLonForZip], [findNearestStation],
    [getLatestObservation], [getObservationForZip]) and the properties of
    its JSON extraction.

    - A decoded JSON document ([interface{}] as [encoding/json] fills it) is
      the inductive type [json]; a number is a binary64 float, Rocq's
      primitive [float].
    - A Go map is kept as the list of its entries in the order in which the
      runtime happens to iterate over it.  Go leaves that order unspecified,
      so statements quantify over every entry list; [wf] says that no key
      occurs twice, which every Go map satisfies.
    - The network and [fmt]'s rendering of a float are the environment
      [Env]; the requests made and the text written to standard output are
      the [World] threaded through the computation.
    - A run-time panic is an outcome of its own, carrying the run-time
      error. *)

From Stdlib Require Import String Ascii List ZArith Bool Lia Permutation.
From Stdlib Require Import Floats.PrimFloat.
Import ListNotations.

Set Warnings "-register-all,-inexact-float".

Local Open Scope list_scope.
Local Open Scope string_scope.

(** ** Decoded JSON values *)

Inductive json : Type :=
| JNull                                   (* nil *)
| JBool (b : bool)                        (* bool *)
| JNum (f : float)                        (* float64 *)
| JStr (s : string)                       (* string *)
| JArr (xs : list json)                   (* []interface{} *)
| JObj (kvs : list (string * json)).      (* map[string]interface{} *)

(** [map[string]interface{}]: its entries, in iteration order. *)
Definition GoMap : Type := list (string * json).

(** The dynamic types an [interface{}] filled by the decoder can have. *)
Inductive GoType : Type :=
| TNil | TBool | TFloat64 | TString | TSlice | TMap.

Definition dynType (j : json) : GoType :=
  match j with
  | JNull => TNil
  | JBool _ => TBool
  | JNum _ => TFloat64
  | JStr _ => TString
  | JArr _ => TSlice
  | JObj _ => TMap
  end.

Definition keys (m : GoMap) : list string := map fst m.

Fixpoint mapLookup (k : string) (m : GoMap) : option json :=
  match m with
  | [] => None
  | (k', v) :: m' => if k' =? k then Some v else mapLookup k m'
  end.

(** [m[k]]: the zero value [nil] when the key is absent. *)
Definition mapIndex (m : GoMap) (k : string) : json :=
  match mapLookup k m with
  | Some v => v
  | None => JNull
  end.

Fixpoint memb (k : string) (ks : list string) : bool :=
  match ks with
  | [] => false
  | k' :: ks' => (k' =? k) || memb k ks'
  end.

Fixpoint nodupb (ks : list string) : bool :=
  match ks with
  | [] => true
  | k :: ks' => negb (memb k ks') && nodupb ks'
  end.

(** A value as the decoder builds it: no map holds a key twice. *)
Fixpoint wf (j : json) : bool :=
  match j with
  | JArr xs => forallb wf xs
  | JObj kvs => nodupb (map fst kvs) && forallb (fun kv => wf (snd kv)) kvs
  | _ => true
  end.

(** Two entry lists denote the same Go map. *)
Definition sameMap (m1 m2 : GoMap) : Prop :=
  forall k, mapLookup k m1 = mapLookup k m2.

(** ** Run-time errors, outcomes, the environment *)

Inductive runtimeError : Type :=
| TypeAssertionError (dynamic asserted : GoType)
    (* interface conversion: interface {} is [dynamic], not [asserted] *)
| IndexOutOfRange (index length : Z)
    (* index out of range [index] with length [length] *)
| SliceBoundsOutOfRange (low length : Z).
    (* slice bounds out of range [low:] on a string of [length] bytes *)

Inductive outcome (A : Type) : Type :=
| Ret (a : A)
| Panic (e : runtimeError).
Arguments Ret {A} a.
Arguments Panic {A} e.

(** What [json.NewDecoder(resp.Body).Decode] makes of a response body. *)
Inductive Body : Type :=
| Malformed (err : string)
| Document (j : json).

(** What [http.Get] returns: an error (given by its message) or a
    response. *)
Inductive HttpResult : Type :=
| GetError (err : string)
| Response (body : Body).

(** [httpGet n url] answers the request for [url] made after [n] earlier
    requests; [sprintFloat] is [fmt]'s [%v] of a [float64]. *)
Record Env : Type := mkEnv {
  httpGet : nat -> string -> HttpResult;
  sprintFloat : float -> string
}.

Record World : Type := mkWorld {
  requests : list string;   (* URLs requested so far, oldest first *)
  stdout : list string      (* writes to os.Stdout, oldest first *)
}.

Definition M (A : Type) : Type := Env -> World -> outcome A * World.

Definition ret {A} (a : A) : M A := fun _ w => (Ret a, w).

Definition bind {A B} (c : M A) (k : A -> M B) : M B :=
  fun env w =>
    match c env w with
    | (Ret a, w') => k a env w'
    | (Panic e, w') => (Panic e, w')
    end.

Definition panic {A} (e : runtimeError) : M A := fun _ w => (Panic e, w).

Notation "x <- c ;; k" := (bind c (fun x => k))
  (at level 61, c at next level, right associativity).
Notation "c ;;; k" := (bind c (fun _ => k))
  (at level 61, right associativity).

(** [for _, x := range xs { body }] without a [return] in the body: the
    locals the body assigns are the loop state. *)
Fixpoint forRange {X S} (xs : list X) (body : X -> S -> M S) (s : S) : M S :=
  match xs with
  | [] => ret s
  | x :: xs' => s' <- body x s ;; forRange xs' body s'
  end.

(** A loop body that may execute [return r]. *)
Inductive flow (S R : Type) : Type :=
| Next (s : S)
| Return (r : R).
Arguments Next {S R} s.
Arguments Return {S R} r.

Fixpoint forRangeRet {X S R} (xs : list X) (body : X -> S -> M (flow S R))
    (s : S) : M (flow S R) :=
  match xs with
  | [] => ret (Next s)
  | x :: xs' =>
      f <- body x s ;;
      match f with
      | Next s' => forRangeRet xs' body s'
      | Return r => ret (Return r)
      end
  end.

(** *** Primitive operations *)

Definition httpGetM (url : string) : M HttpResult :=
  fun env w =>
    (Ret (httpGet env (List.length (requests w)) url),
     mkWorld (requests w ++ [url])%list (stdout w)).

Definition printStdout (text : string) : M unit :=
  fun _ w => (Ret tt, mkWorld (requests w) (stdout w ++ [text])%list).

(** [j.(map[string]interface{})] *)
Definition assertMap (j : json) : M GoMap :=
  match j with
  | JObj m => ret m
  | _ => panic (TypeAssertionError (dynType j) TMap)
  end.

(** [j.([]interface{})] *)
Definition assertSlice (j : json) : M (list json) :=
  match j with
  | JArr xs => ret xs
  | _ => panic (TypeAssertionError (dynType j) TSlice)
  end.

(** [j.(string)] *)
Definition assertString (j : json) : M string :=
  match j with
  | JStr s => ret s
  | _ => panic (TypeAssertionError (dynType j) TString)
  end.

(** [j.(float64)] *)
Definition assertFloat64 (j : json) : M float :=
  match j with
  | JNum f => ret f
  | _ => panic (TypeAssertionError (dynType j) TFloat64)
  end.

Definition len {X} (xs : list X) : Z := Z.of_nat (List.length xs).

(** [xs[i]] *)
Definition indexSlice (xs : list json) (i : Z) : M json :=
  if ((i <? 0) || (len xs <=? i))%Z
  then panic (IndexOutOfRange i (len xs))
  else ret (nth (Z.to_nat i) xs JNull).

(** The indices [for k := range xs] goes through. *)
Definition indices {X} (xs : list X) : list Z :=
  map Z.of_nat (seq 0 (List.length xs)).

Definition strlen (s : string) : Z := Z.of_nat (String.length s).

(** [s[lo:]] on a string: the bytes from offset [lo] on. *)
Definition sliceFrom (s : string) (lo : Z) : M string :=
  if ((lo <? 0) || (strlen s <? lo))%Z
  then panic (SliceBoundsOutOfRange lo (strlen s))
  else ret (substring (Z.to_nat lo) (String.length s - Z.to_nat lo) s).

Definition newline : string := String "010"%char EmptyString.

(** ** The records of [main.go] *)

Module LookupData.
Record t : Type := mk {
  ZipCode : string;
  City : string;
  State : string;
  Temperature : float;
  Station : string
}.
End LookupData.

Module LocationData.
Record t : Type := mk {
  City : string;
  State : string;
  Zip : string;
  Latitude : float;
  Longitude : float
}.
(** [var loc LocationData] *)
Definition zero : t := mk "" "" "" 0%float 0%float.
Definition setCity (v : string) (l : t) : t :=
  mk v (State l) (Zip l) (Latitude l) (Longitude l).
Definition setState (v : string) (l : t) : t :=
  mk (City l) v (Zip l) (Latitude l) (Longitude l).
Definition setZip (v : string) (l : t) : t :=
  mk (City l) (State l) v (Latitude l) (Longitude l).
Definition setLatitude (v : float) (l : t) : t :=
  mk (City l) (State l) (Zip l) v (Longitude l).
Definition setLongitude (v : float) (l : t) : t :=
  mk (City l) (State l) (Zip l) (Latitude l) v.
End LocationData.

Module WeatherObservation.
Record t : Type := mk {
  Station : string;
  Temperature : float
}.
Definition setTemperature (v : float) (o : t) : t := mk (Station o) v.
End WeatherObservation.

(** ** The functions of [main.go] *)

(** The deferred [resp.Body.Close()] changes nothing the lookup observes
    and is left out. *)
Definition getJSONData (requestURL : string) : M json :=
  r <- httpGetM requestURL ;;
  match r with
  | GetError err =>
      printStdout
        ("There was an error making the request to the location info API: "
           ++ err ++ newline) ;;;
      ret JNull
  | Response body =>
      match body with
      | Malformed err =>
          printStdout
            ("There was an error processing JSON data: " ++ err ++ newline) ;;;
          ret JNull
      | Document jsonData => ret jsonData
      end
  end.

Definition geocodeURL (zip : string) : string :=
  "https://public.opendatasoft.com/api/records/1.0/search/?dataset=us-zip-code-latitude-and-longitude&q="
    ++ zip.

(** The [switch k] over the keys of "fields". *)
Definition fieldsBody (typedLocData : GoMap) (kv : string * json)
    (loc : LocationData.t) : M LocationData.t :=
  let k := fst kv in
  if k =? "city" then
    v <- assertString (mapIndex typedLocData k) ;;
    ret (LocationData.setCity v loc)
  else if k =? "zip" then
    v <- assertString (mapIndex typedLocData k) ;;
    ret (LocationData.setZip v loc)
  else if k =? "longitude" then
    v <- assertFloat64 (mapIndex typedLocData k) ;;
    ret (LocationData.setLongitude v loc)
  else if k =? "state" then
    v <- assertString (mapIndex typedLocData k) ;;
    ret (LocationData.setState v loc)
  else if k =? "latitude" then
    v <- assertFloat64 (mapIndex typedLocData k) ;;
    ret (LocationData.setLatitude v loc)
  else ret loc.

Definition recordBody (typedInfoRecord : GoMap) (kv : string * json)
    (loc : LocationData.t) : M LocationData.t :=
  if fst kv =? "fields" then
    typedLocData <- assertMap (mapIndex typedInfoRecord "fields") ;;
    forRange typedLocData (fieldsBody typedLocData) loc
  else ret loc.

Definition responseBody (typedJSONData : GoMap) (kv : string * json)
    (loc : LocationData.t) : M LocationData.t :=
  if fst kv =? "records" then
    typedRecordsInfo <- assertSlice (mapIndex typedJSONData "records") ;;
    r0 <- indexSlice typedRecordsInfo 0 ;;
    typedInfoRecord <- assertMap r0 ;;
    forRange typedInfoRecord (recordBody typedInfoRecord) loc
  else ret loc.

Definition latLonForZip (zip : string) : M LocationData.t :=
  let url := geocodeURL zip in
  let loc := LocationData.zero in
  jsonData <- getJSONData url ;;
  typedJSONData <- assertMap jsonData ;;
  forRange typedJSONData (responseBody typedJSONData) loc.

Definition pointsURL (env : Env) (lat lon : float) : string :=
  "https://api.weather.gov/points/" ++ sprintFloat env lat ++ ","
    ++ sprintFloat env lon ++ "/stations".

(** [fmt.Sprintf] with the two [%v] of floats. *)
Definition sprintfPoints (lat lon : float) : M string :=
  fun env w => (Ret (pointsURL env lat lon), w).

Definition stationsBody (typedStations : list json) (k : Z)
    (stationID : string) : M (flow string string) :=
  if (k =? 0)%Z then
    stationID <- (j <- indexSlice typedStations k ;; assertString j) ;;
    stationID <- sliceFrom stationID (strlen stationID - 4) ;;
    ret (Return stationID)
  else ret (Next stationID).

Definition pointsBody (typedJSONData : GoMap) (kv : string * json)
    (stationID : string) : M (flow string string) :=
  if fst kv =? "observationStations" then
    typedStations <-
      assertSlice (mapIndex typedJSONData "observationStations") ;;
    forRangeRet (indices typedStations) (stationsBody typedStations) stationID
  else ret (Next stationID).

Definition findNearestStation (lat lon : float) : M string :=
  let stationID := "" in
  url <- sprintfPoints lat lon ;;
  jsonData <- getJSONData url ;;
  typedJSONData <- assertMap jsonData ;;
  f <- forRangeRet typedJSONData (pointsBody typedJSONData) stationID ;;
  match f with
  | Return r => ret r
  | Next stationID => ret stationID
  end.

Definition observationURL (station : string) : string :=
  "https://api.weather.gov/stations/" ++ station ++ "/observations/latest".

Definition tempBody (kv : string * json) (o : WeatherObservation.t)
    : M WeatherObservation.t :=
  let (k, v) := kv in
  if k =? "value" then
    t <- assertFloat64 v ;;
    ret (WeatherObservation.setTemperature t o)
  else ret o.

Definition propsBody (kv : string * json) (o : WeatherObservation.t)
    : M WeatherObservation.t :=
  let (k, v) := kv in
  if k =? "temperature" then
    typedTemp <- assertMap v ;;
    forRange typedTemp tempBody o
  else ret o.

Definition observationBody (kv : string * json) (o : WeatherObservation.t)
    : M WeatherObservation.t :=
  let (k, v) := kv in
  if k =? "properties" then
    typedProps <- assertMap v ;;
    forRange typedProps propsBody o
  else ret o.

Definition getLatestObservation (station : string) : M WeatherObservation.t :=
  let latestObservation := WeatherObservation.mk station 0%float in
  let requestURL := observationURL station in
  jsonData <- getJSONData requestURL ;;
  typedJSONData <- assertMap jsonData ;;
  forRange typedJSONData observationBody latestObservation.

Definition getObservationForZip (zip : string) : M LookupData.t :=
  loc <- latLonForZip zip ;;
  nearestStation <-
    findNearestStation (LocationData.Latitude loc) (LocationData.Longitude loc) ;;
  latestObservation <- getLatestObservation nearestStation ;;
  ret (LookupData.mk
         (LocationData.Zip loc)
         (LocationData.City loc)
         (LocationData.State loc)
         (WeatherObservation.Temperature latestObservation)
         (WeatherObservation.Station latestObservation)).

(** ** What the claims speak of *)

(** [id] is the trailing four bytes of [s]. *)
Definition trailing4 (s id : string) : Prop :=
  exists pre, s = pre ++ id /\ String.length id = 4.

Definition latitudeInRange (x : float) : bool :=
  ((-90)%float <=? x)%float && (x <=? 90%float)%float.

Definition longitudeInRange (x : float) : bool :=
  ((-180)%float <=? x)%float && (x <=? 180%float)%float.

(** A key of "fields" is absent or holds a string / a number. *)
Definition stringOrAbsent (o : option json) : bool :=
  match o with
  | None | Some (JStr _) => true
  | _ => false
  end.

Definition numberOrAbsent (o : option json) : bool :=
  match o with
  | None | Some (JNum _) => true
  | _ => false
  end.

Definition fieldsWellTyped (f : GoMap) : bool :=
  stringOrAbsent (mapLookup "city" f)
  && stringOrAbsent (mapLookup "zip" f)
  && numberOrAbsent (mapLookup "longitude" f)
  && stringOrAbsent (mapLookup "state" f)
  && numberOrAbsent (mapLookup "latitude" f).

(** The string / number under [k], [d] when the key is absent. *)
Definition stringField (k : string) (f : GoMap) (d : string) : string :=
  match mapLookup k f with
  | Some (JStr s) => s
  | _ => d
  end.

Definition numberField (k : string) (f : GoMap) (d : float) : float :=
  match mapLookup k f with
  | Some (JNum x) => x
  | _ => d
  end.

(** The fetch failed: [getJSONData] has no document to hand out. *)
Definition fetchFailed (r : HttpResult) : bool :=
  match r with
  | GetError _ | Response (Malformed _) => true
  | Response (Document _) => false
  end.

(** The line [getJSONData] prints for a failed fetch. *)
Definition diagnostic (r : HttpResult) : list string :=
  match r with
  | GetError err =>
      ["There was an error making the request to the location info API: "
         ++ err ++ newline]
  | Response (Malformed err) =>
      ["There was an error processing JSON data: " ++ err ++ newline]
  | Response (Document _) => []
  end.

(** The world after one more request. *)
Definition requested (url : string) (w : World) : World :=
  mkWorld (requests w ++ [url])%list (stdout w).

(** [c] neither consults the environment nor changes the world. *)
Definition pure {A} (c : M A) : Prop :=
  exists o, forall env w, c env w = (o, w).

(** What [findNearestStation] does with the value under
    "observationStations", [None] when the key is absent. *)
Definition stationsStep (o : option json) : M string :=
  f <- match o with
       | Some j =>
           typedStations <- assertSlice j ;;
           forRangeRet (indices typedStations) (stationsBody typedStations) ""
       | None => ret (Next "")
       end ;;
  match f with
  | Return r => ret r
  | Next stationID => ret stationID
  end.

(** ** The end-to-end scenario and other concrete inputs *)

Definition scenarioFields : GoMap :=
  [("city", JStr "Washington"); ("state", JStr "DC"); ("zip", JStr "20500");
   ("latitude", JNum 38.9%float); ("longitude", JNum (-77.03)%float)].

(** {"records":[{"fields":{...}}]} *)
Definition geocodingResponse (fields : GoMap) : json :=
  JObj [("records", JArr [JObj [("fields", JObj fields)]])].

(** {"observationStations":["https://api.weather.gov/stations/KDCA"]} *)
Definition stationsResponse : json :=
  JObj [("observationStations",
         JArr [JStr "https://api.weather.gov/stations/KDCA"])].

(** {"properties":{"temperature":{"value":21.1}}} *)
Definition observationResponse : json :=
  JObj [("properties",
         JObj [("temperature", JObj [("value", JNum 21.1%float)])])].

(** A network that answers the three requests of the scenario in turn. *)
Definition scenarioEnv : Env :=
  mkEnv (fun n _ =>
           Response (Document
             match n with
             | 0 => geocodingResponse scenarioFields
             | 1 => stationsResponse
             | _ => observationResponse
             end))
        (fun _ => "0").

Definition freshWorld : World := mkWorld [] [].

(** A network that gives every request the same answer. *)
Definition constEnv (r : HttpResult) : Env := mkEnv (fun _ _ => r) (fun _ => "0").

(** The path "properties.temperature.value" is absent: a key is missing at
    some level, the levels above it being maps. *)
Definition valueAbsent (m : GoMap) : Prop :=
  mapLookup "properties" m = None \/
  exists p, mapLookup "properties" m = Some (JObj p) /\
    (mapLookup "temperature" p = None \/
     exists t, mapLookup "temperature" p = Some (JObj t) /\
       mapLookup "value" t = None).

(** {"records":[{"fields":{"city":"Washington","state":"DC","zip":"20500",
    "latitude":91.5,"longitude":-77.03,"timezone":-5}}]} *)
Definition polarFields : GoMap :=
  [("city", JStr "Washington"); ("state", JStr "DC"); ("zip", JStr "20500");
   ("latitude", JNum 91.5%float); ("longitude", JNum (-77.03)%float);
   ("timezone", JNum (-5)%float)].

(** ** Further vocabulary: ill-typed fields, the page handler *)

(** The value [v] under key [k] of "fields" fails the assertion the
    [switch] makes for [k]. *)
Definition illTyped (k : string) (v : json) : bool :=
  if (k =? "city") || (k =? "zip") || (k =? "state") then
    match v with JStr _ => false | _ => true end
  else if (k =? "longitude") || (k =? "latitude") then
    match v with JNum _ => false | _ => true end
  else false.

(** [url.Values]: the parsed form, each key with its values. *)
Definition Values : Type := list (string * list string).

Fixpoint valuesLookup (key : string) (form : Values) : option (list string) :=
  match form with
  | [] => None
  | (k, vs) :: form' => if k =? key then Some vs else valuesLookup key form'
  end.

(** [req.Form.Get(key)]: the first value of the key, "" when there is
    none. *)
Definition formGet (form : Values) (key : string) : string :=
  match valuesLookup key form with
  | Some (v :: _) => v
  | _ => ""
  end.

(** A parsed template, given by what [Execute] writes to the response for
    the data it is handed; the error [Execute] may return is dropped by the
    handlers. *)
Record Template : Type := mkTemplate {
  execute : option LookupData.t -> list string
}.

(** [template.New(name).ParseFiles(name)]: an error (its message) or the
    template. *)
Record Site : Type := mkSite {
  parseFiles : string -> string + Template
}.

(** What a handler works on: the world and the response written so far. *)
Record Exchange : Type := mkExchange {
  world : World;
  response : list string
}.

(** What a handler can panic with: the error of [panic(err)], or a run-time
    error of the lookup. *)
Inductive panicValue : Type :=
| ErrorValue (msg : string)
| RuntimePanic (e : runtimeError).

(** [lookupHandler]; [None] when it returns, [Some] of the panic value
    when it panics.  [form] is [req.Form] after [req.ParseForm()]. *)
Definition lookupHandler (site : Site) (form : Values) (env : Env)
    (x : Exchange) : option panicValue * Exchange :=
  match parseFiles site "lookup" with
  | inl err =>
      (Some (ErrorValue err),
       mkExchange (world x)
         (response x ++
            ["There was an error generating the template for this page!"])%list)
  | inr templ =>
      let zip := formGet form "zipCode" in
      match getObservationForZip zip env (world x) with
      | (Ret lookup, w') =>
          (None,
           mkExchange w' (response x ++ execute templ (Some lookup))%list)
      | (Panic e, w') => (Some (RuntimePanic e), mkExchange w' (response x))
      end
  end.

(** ** Maps as entry lists *)

Lemma memb_In k ks : memb k ks = true <-> In k ks.
Proof.
  induction ks as [|k' ks IH]; simpl.
  - split; [discriminate | tauto].
  - rewrite orb_true_iff, IH, String.eqb_eq. tauto.
Qed.

Lemma nodupb_NoDup ks : nodupb ks = true <-> NoDup ks.
Proof.
  induction ks as [|k ks IH]; simpl.
  - split; [constructor | reflexivity].
  - rewrite andb_true_iff, negb_true_iff, IH. split.
    + intros [Hm Hn]. constructor; [|exact Hn].
      intro Hin. apply memb_In in Hin. congruence.
    + intro H. inversion H as [|? ? Hnin Hn]; subst. split; [|exact Hn].
      destruct (memb k ks) eqn:E; [|reflexivity].
      apply memb_In in E. contradiction.
Qed.

Lemma mapLookup_In k v m : mapLookup k m = Some v -> In (k, v) m.
Proof.
  induction m as [|[k' v'] m IH]; simpl; [discriminate|].
  destruct (k' =? k) eqn:E.
  - apply String.eqb_eq in E. intros [= ->]. subst. now left.
  - intro H. right. auto.
Qed.

Lemma mapLookup_None k m : mapLookup k m = None <-> ~ In k (keys m).
Proof.
  induction m as [|[k' v'] m IH]; simpl.
  - tauto.
  - destruct (k' =? k) eqn:E.
    + apply String.eqb_eq in E. split; [discriminate | tauto].
    + apply String.eqb_neq in E. rewrite IH. tauto.
Qed.

Lemma In_mapLookup k v m :
  NoDup (keys m) -> In (k, v) m -> mapLookup k m = Some v.
Proof.
  induction m as [|[k' v'] m IH]; simpl; [tauto|].
  intros Hnd Hin. inversion Hnd as [|? ? Hnin Hnd']; subst.
  destruct Hin as [[= -> ->] | Hin].
  - now rewrite String.eqb_refl.
  - destruct (k' =? k) eqn:E; [|auto].
    apply String.eqb_eq in E. subst. exfalso. apply Hnin.
    change k with (fst (k, v)). now apply in_map.
Qed.

Lemma wf_JObj m :
  wf (JObj m) = true ->
  nodupb (keys m) = true /\
  forall k v, mapLookup k m = Some v -> wf v = true.
Proof.
  simpl. rewrite andb_true_iff, forallb_forall. intros [Hn Hall].
  split; [exact Hn|]. intros k v Hl.
  apply (Hall (k, v)). now apply mapLookup_In.
Qed.

Lemma wf_JArr_head x xs : wf (JArr (x :: xs)) = true -> wf x = true.
Proof. simpl. rewrite andb_true_iff. tauto. Qed.

(** Reordering the entries of a map without a repeated key gives the same
    map. *)
Lemma Permutation_sameMap m1 m2 :
  Permutation m1 m2 -> nodupb (keys m2) = true ->
  nodupb (keys m1) = true /\ sameMap m1 m2.
Proof.
  intros HP Hn2. apply nodupb_NoDup in Hn2.
  assert (HPk : Permutation (keys m1) (keys m2)) by now apply Permutation_map.
  assert (Hn1 : NoDup (keys m1)).
  { eapply Permutation_NoDup; [apply Permutation_sym; exact HPk | exact Hn2]. }
  split; [now apply nodupb_NoDup|].
  intro k. destruct (mapLookup k m1) as [v|] eqn:E1.
  - symmetry. apply In_mapLookup; [exact Hn2|].
    eapply Permutation_in; [exact HP|]. now apply mapLookup_In.
  - symmetry. apply mapLookup_None. apply mapLookup_None in E1.
    intro Hin. apply E1. eapply Permutation_in; [|exact Hin].
    now apply Permutation_sym.
Qed.

(** ** Strings: the tail slice *)

Lemma substring_tail s : forall n,
  n <= String.length s ->
  s = substring 0 n s ++ substring n (String.length s - n) s
  /\ String.length (substring n (String.length s - n) s) = String.length s - n.
Proof.
  induction s as [|c s IH]; intros n Hn; simpl in *.
  - assert (n = 0) by lia. subst. simpl. auto.
  - destruct n as [|n].
    + simpl. destruct (IH 0 ltac:(lia)) as [He Hl].
      rewrite Nat.sub_0_r in He, Hl. simpl in He.
      assert (E0 : substring 0 0 s = "") by (destruct s; reflexivity).
      rewrite E0 in He. simpl in He. rewrite <- He. auto.
    + destruct (IH n ltac:(lia)) as [He Hl]. simpl.
      rewrite <- He. auto.
Qed.

(** ** Loops over a map that act on one key *)

Section KeyedLoops.
Context {St : Type} (K : string).

Section NoReturn.
Variable body : string * json -> St -> M St.
Variable hit : json -> St -> M St.
Hypothesis body_miss :
  forall kv s env w, fst kv <> K -> body kv s env w = (Ret s, w).
Hypothesis body_hit :
  forall v s env w, body (K, v) s env w = hit v s env w.

Lemma forRange_miss m s env w :
  ~ In K (keys m) -> forRange m body s env w = (Ret s, w).
Proof.
  revert s w. induction m as [|[k v] m IH]; intros s w Hnin; simpl.
  - reflexivity.
  - simpl in Hnin. unfold bind. rewrite body_miss by (simpl; tauto).
    apply IH. tauto.
Qed.

Lemma forRange_key m s env w :
  nodupb (keys m) = true ->
  forRange m body s env w =
    match mapLookup K m with
    | Some v => hit v s env w
    | None => (Ret s, w)
    end.
Proof.
  rewrite nodupb_NoDup. revert s w.
  induction m as [|[k v] m IH]; intros s w Hnd; simpl.
  - reflexivity.
  - inversion Hnd as [|? ? Hnin Hnd']; subst. unfold bind.
    destruct (k =? K) eqn:E.
    + apply String.eqb_eq in E. subst k. rewrite body_hit.
      destruct (hit v s env w) as [[s'|e] w']; [|reflexivity].
      now apply forRange_miss.
    + apply String.eqb_neq in E. rewrite body_miss by exact E.
      now apply IH.
Qed.
End NoReturn.

Section WithReturn.
Context {R : Type}.
Variable body : string * json -> St -> M (flow St R).
Variable hit : json -> St -> M (flow St R).
Hypothesis body_miss :
  forall kv s env w, fst kv <> K -> body kv s env w = (Ret (Next s), w).
Hypothesis body_hit :
  forall v s env w, body (K, v) s env w = hit v s env w.

Lemma forRangeRet_miss m s env w :
  ~ In K (keys m) -> forRangeRet m body s env w = (Ret (Next s), w).
Proof.
  revert s w. induction m as [|[k v] m IH]; intros s w Hnin; simpl.
  - reflexivity.
  - simpl in Hnin. unfold bind. rewrite body_miss by (simpl; tauto).
    apply IH. tauto.
Qed.

Lemma forRangeRet_key m s env w :
  nodupb (keys m) = true ->
  forRangeRet m body s env w =
    match mapLookup K m with
    | Some v => hit v s env w
    | None => (Ret (Next s), w)
    end.
Proof.
  rewrite nodupb_NoDup. revert s w.
  induction m as [|[k v] m IH]; intros s w Hnd; simpl.
  - reflexivity.
  - inversion Hnd as [|? ? Hnin Hnd']; subst. unfold bind.
    destruct (k =? K) eqn:E.
    + apply String.eqb_eq in E. subst k. rewrite body_hit.
      destruct (hit v s env w) as [[[s'|r]|e] w']; try reflexivity.
      now apply forRangeRet_miss.
    + apply String.eqb_neq in E. rewrite body_miss by exact E.
      now apply IH.
Qed.
End WithReturn.
End KeyedLoops.

(** ** The fetcher *)

Lemma getJSONData_document url env w j :
  httpGet env (List.length (requests w)) url = Response (Document j) ->
  getJSONData url env w = (Ret j, requested url w).
Proof.
  intro H. unfold getJSONData, bind, httpGetM. rewrite H. reflexivity.
Qed.

Lemma getJSONData_failed url env w :
  fetchFailed (httpGet env (List.length (requests w)) url) = true ->
  getJSONData url env w =
    (Ret JNull,
     mkWorld (requests w ++ [url])%list
       (stdout w ++ diagnostic (httpGet env (List.length (requests w)) url))%list).
Proof.
  unfold getJSONData, bind, httpGetM.
  destruct (httpGet env (List.length (requests w)) url) as [err|[err|j]];
    simpl; intro H; try reflexivity; discriminate.
Qed.

(** ** The geocoder's loops *)

Lemma fields_loop f :
  fieldsWellTyped f = true ->
  forall l, NoDup (keys l) ->
  (forall k v, In (k, v) l -> mapLookup k f = Some v) ->
  forall loc env w,
    forRange l (fieldsBody f) loc env w =
      (Ret (LocationData.mk
              (stringField "city" l (LocationData.City loc))
              (stringField "state" l (LocationData.State loc))
              (stringField "zip" l (LocationData.Zip loc))
              (numberField "latitude" l (LocationData.Latitude loc))
              (numberField "longitude" l (LocationData.Longitude loc))), w).
Proof.
  unfold fieldsWellTyped. rewrite !andb_true_iff.
  intros [[[[Hc Hz] Hlo] Hs] Hla].
  induction l as [|[k v] l IH]; intros Hnd Hin loc env w.
  - destruct loc. reflexivity.
  - inversion Hnd as [|? ? Hnin Hnd']; subst.
    assert (Hk : mapLookup k f = Some v) by (apply Hin; now left).
    assert (Hin' : forall k v, In (k, v) l -> mapLookup k f = Some v)
      by (intros; apply Hin; now right).
    assert (Habs : mapLookup k l = None) by now apply mapLookup_None.
    specialize (IH Hnd' Hin').
    simpl forRange. unfold bind, fieldsBody at 1, mapIndex.
    cbv zeta. cbn [fst]. rewrite Hk. unfold stringField, numberField. simpl mapLookup.
    destruct (k =? "city") eqn:E1.
    { apply String.eqb_eq in E1. subst k. rewrite Hk in Hc.
      destruct v; try discriminate. simpl. rewrite IH.
      unfold stringField, numberField. rewrite Habs. reflexivity. }
    destruct (k =? "zip") eqn:E2.
    { apply String.eqb_eq in E2. subst k. rewrite Hk in Hz.
      destruct v; try discriminate. simpl. rewrite IH.
      unfold stringField, numberField. rewrite Habs. reflexivity. }
    destruct (k =? "longitude") eqn:E3.
    { apply String.eqb_eq in E3. subst k. rewrite Hk in Hlo.
      destruct v; try discriminate. simpl. rewrite IH.
      unfold stringField, numberField. rewrite Habs. reflexivity. }
    destruct (k =? "state") eqn:E4.
    { apply String.eqb_eq in E4. subst k. rewrite Hk in Hs.
      destruct v; try discriminate. simpl. rewrite IH.
      unfold stringField, numberField. rewrite Habs. reflexivity. }
    destruct (k =? "latitude") eqn:E5.
    { apply String.eqb_eq in E5. subst k. rewrite Hk in Hla.
      destruct v; try discriminate. simpl. rewrite IH.
      unfold stringField, numberField. rewrite Habs. reflexivity. }
    unfold ret. rewrite IH. reflexivity.
Qed.

Lemma record_loop rec loc env w :
  nodupb (keys rec) = true ->
  forRange rec (recordBody rec) loc env w =
    match mapLookup "fields" rec with
    | Some _ =>
        (typedLocData <- assertMap (mapIndex rec "fields") ;;
         forRange typedLocData (fieldsBody typedLocData) loc) env w
    | None => (Ret loc, w)
    end.
Proof.
  intro Hnd.
  apply (forRange_key "fields" (recordBody rec)
           (fun _ loc =>
              typedLocData <- assertMap (mapIndex rec "fields") ;;
              forRange typedLocData (fieldsBody typedLocData) loc));
    [ | reflexivity | exact Hnd ].
  intros kv s env' w' Hne. unfold recordBody.
  apply String.eqb_neq in Hne. now rewrite Hne.
Qed.

Lemma response_loop m loc env w :
  nodupb (keys m) = true ->
  forRange m (responseBody m) loc env w =
    match mapLookup "records" m with
    | Some _ =>
        (typedRecordsInfo <- assertSlice (mapIndex m "records") ;;
         r0 <- indexSlice typedRecordsInfo 0 ;;
         typedInfoRecord <- assertMap r0 ;;
         forRange typedInfoRecord (recordBody typedInfoRecord) loc) env w
    | None => (Ret loc, w)
    end.
Proof.
  intro Hnd.
  apply (forRange_key "records" (responseBody m)
           (fun _ loc =>
              typedRecordsInfo <- assertSlice (mapIndex m "records") ;;
              r0 <- indexSlice typedRecordsInfo 0 ;;
              typedInfoRecord <- assertMap r0 ;;
              forRange typedInfoRecord (recordBody typedInfoRecord) loc));
    [ | reflexivity | exact Hnd ].
  intros kv s env' w' Hne. unfold responseBody.
  apply String.eqb_neq in Hne. now rewrite Hne.
Qed.

(** The geocoder on a response that carries [records[0].fields]. *)
Lemma latLonForZip_fields zip env w m rec rest f :
  httpGet env (List.length (requests w)) (geocodeURL zip)
    = Response (Document (JObj m)) ->
  wf (JObj m) = true ->
  mapLookup "records" m = Some (JArr (JObj rec :: rest)) ->
  mapLookup "fields" rec = Some (JObj f) ->
  fieldsWellTyped f = true ->
  latLonForZip zip env w =
    (Ret (LocationData.mk
            (stringField "city" f "") (stringField "state" f "")
            (stringField "zip" f "")
            (numberField "latitude" f 0%float)
            (numberField "longitude" f 0%float)),
     requested (geocodeURL zip) w).
Proof.
  intros Hget Hwf Hrecs Hfields Htyped.
  destruct (wf_JObj _ Hwf) as [Hnm Hsub].
  pose proof (wf_JArr_head _ _ (Hsub _ _ Hrecs)) as Hwrec.
  destruct (wf_JObj _ Hwrec) as [Hnrec Hsubrec].
  destruct (wf_JObj _ (Hsubrec _ _ Hfields)) as [Hnf _].
  unfold latLonForZip, bind. rewrite (getJSONData_document _ _ _ _ Hget).
  cbn [assertMap ret]. rewrite (response_loop _ _ _ _ Hnm), Hrecs.
  unfold bind, mapIndex. rewrite Hrecs. cbn [assertSlice ret].
  unfold indexSlice. cbn [len List.length Z.of_nat Z.ltb Z.leb Z.compare orb].
  cbn [ret nth Z.to_nat assertMap].
  rewrite (record_loop _ _ _ _ Hnrec), Hfields.
  unfold bind, mapIndex. rewrite Hfields. cbn [assertMap ret].
  apply nodupb_NoDup in Hnf.
  rewrite (fields_loop f Htyped f Hnf); [reflexivity|].
  intros k v. now apply In_mapLookup.
Qed.

(** ** Code that leaves the world alone *)

Lemma pure_ret {A} (a : A) : pure (ret a).
Proof. now exists (Ret a). Qed.

Lemma pure_panic {A} e : pure (@panic A e).
Proof. now exists (Panic e). Qed.

Lemma pure_bind {A B} (c : M A) (k : A -> M B) :
  pure c -> (forall a, pure (k a)) -> pure (bind c k).
Proof.
  intros [[a|e] Hc] Hk.
  - destruct (Hk a) as [o Ho]. exists o. intros env w.
    unfold bind. now rewrite Hc, Ho.
  - exists (Panic e). intros env w. unfold bind. now rewrite Hc.
Qed.

Lemma pure_assertMap j : pure (assertMap j).
Proof. destruct j; simpl; auto using pure_ret, pure_panic. Qed.

Lemma pure_assertSlice j : pure (assertSlice j).
Proof. destruct j; simpl; auto using pure_ret, pure_panic. Qed.

Lemma pure_assertString j : pure (assertString j).
Proof. destruct j; simpl; auto using pure_ret, pure_panic. Qed.

Lemma pure_assertFloat64 j : pure (assertFloat64 j).
Proof. destruct j; simpl; auto using pure_ret, pure_panic. Qed.

Lemma pure_indexSlice xs i : pure (indexSlice xs i).
Proof.
  unfold indexSlice. destruct (_ || _); auto using pure_ret, pure_panic.
Qed.

Lemma pure_sliceFrom s lo : pure (sliceFrom s lo).
Proof.
  unfold sliceFrom. destruct (_ || _); auto using pure_ret, pure_panic.
Qed.

Lemma pure_forRangeRet {X St R} (body : X -> St -> M (flow St R)) xs :
  (forall x s, pure (body x s)) -> forall s, pure (forRangeRet xs body s).
Proof.
  intro Hb. induction xs as [|x xs IH]; intro s; simpl.
  - apply pure_ret.
  - apply pure_bind; [apply Hb|]. intros [s'|r]; [apply IH | apply pure_ret].
Qed.

Lemma pure_fst {A} (c : M A) env1 w1 env2 w2 :
  pure c -> fst (c env1 w1) = fst (c env2 w2).
Proof. intros [o Ho]. now rewrite !Ho. Qed.

Create HintDb pure.
#[local] Hint Resolve pure_ret pure_panic pure_assertMap pure_assertSlice
  pure_assertString pure_assertFloat64 pure_indexSlice pure_sliceFrom : pure.

(** ** The station resolver's loops *)

Lemma pure_stationsBody xs k s : pure (stationsBody xs k s).
Proof.
  unfold stationsBody. destruct (k =? 0)%Z; [|apply pure_ret].
  repeat (apply pure_bind; [|intro]); auto with pure.
Qed.

Lemma pure_stationsStep o : pure (stationsStep o).
Proof.
  unfold stationsStep. apply pure_bind.
  - destruct o as [j|]; [|apply pure_ret].
    apply pure_bind; [apply pure_assertSlice|]. intro xs.
    apply pure_forRangeRet. intros. apply pure_stationsBody.
  - intros [s|r]; apply pure_ret.
Qed.

Lemma points_loop m s env w :
  nodupb (keys m) = true ->
  forRangeRet m (pointsBody m) s env w =
    match mapLookup "observationStations" m with
    | Some _ =>
        (typedStations <-
           assertSlice (mapIndex m "observationStations") ;;
         forRangeRet (indices typedStations) (stationsBody typedStations) s)
          env w
    | None => (Ret (Next s), w)
    end.
Proof.
  intro Hnd.
  apply (forRangeRet_key "observationStations" (pointsBody m)
           (fun _ s =>
              typedStations <-
                assertSlice (mapIndex m "observationStations") ;;
              forRangeRet (indices typedStations)
                (stationsBody typedStations) s));
    [ | reflexivity | exact Hnd ].
  intros kv s' env' w' Hne. unfold pointsBody.
  apply String.eqb_neq in Hne. now rewrite Hne.
Qed.

(** The resolver on a response that is a map: only the value under
    "observationStations" counts. *)
Lemma findNearestStation_document lat lon env w m :
  httpGet env (List.length (requests w)) (pointsURL env lat lon)
    = Response (Document (JObj m)) ->
  wf (JObj m) = true ->
  findNearestStation lat lon env w =
    stationsStep (mapLookup "observationStations" m) env
      (requested (pointsURL env lat lon) w).
Proof.
  intros Hget Hwf. destruct (wf_JObj _ Hwf) as [Hnm _].
  unfold findNearestStation, stationsStep, bind, sprintfPoints.
  rewrite (getJSONData_document _ _ _ _ Hget). cbn [assertMap ret].
  rewrite (points_loop _ _ _ _ Hnm). unfold mapIndex, bind.
  destruct (mapLookup "observationStations" m) as [j|]; reflexivity.
Qed.

(** The first station is a string: the loop over the stations returns in
    its first round. *)
Lemma stationsStep_string s rest env w :
  stationsStep (Some (JArr (JStr s :: rest))) env w =
    (id <- sliceFrom s (strlen s - 4) ;; ret id) env w.
Proof.
  unfold stationsStep, bind, indices. simpl.
  unfold bind, stationsBody, indexSlice, bind. simpl.
  destruct (sliceFrom s (strlen s - 4) env w) as [[id|e] w']; reflexivity.
Qed.

Lemma sliceFrom_trailing4 s env w :
  4 <= String.length s ->
  exists id, sliceFrom s (strlen s - 4) env w = (Ret id, w) /\ trailing4 s id.
Proof.
  intro Hlen. unfold sliceFrom, strlen.
  destruct (_ || _) eqn:E.
  - apply orb_true_iff in E. destruct E as [E|E];
      [apply Z.ltb_lt in E | apply Z.ltb_lt in E]; lia.
  - replace (Z.to_nat (Z.of_nat (String.length s) - 4))
      with (String.length s - 4) by lia.
    eexists. split; [reflexivity|].
    destruct (substring_tail s (String.length s - 4) ltac:(lia)) as [He Hl].
    exists (substring 0 (String.length s - 4) s). split; [exact He|]. lia.
Qed.

(** ** The observation fetcher's loops *)

Lemma temp_loop t o env w :
  nodupb (keys t) = true ->
  forRange t tempBody o env w =
    match mapLookup "value" t with
    | Some v =>
        (x <- assertFloat64 v ;;
         ret (WeatherObservation.setTemperature x o)) env w
    | None => (Ret o, w)
    end.
Proof.
  intro Hnd.
  apply (forRange_key "value" tempBody
           (fun v o =>
              x <- assertFloat64 v ;;
              ret (WeatherObservation.setTemperature x o)));
    [ | reflexivity | exact Hnd ].
  intros [k v] s env' w' Hne. simpl in Hne. unfold tempBody.
  apply String.eqb_neq in Hne. now rewrite Hne.
Qed.

Lemma props_loop p o env w :
  nodupb (keys p) = true ->
  forRange p propsBody o env w =
    match mapLookup "temperature" p with
    | Some v => (typedTemp <- assertMap v ;; forRange typedTemp tempBody o) env w
    | None => (Ret o, w)
    end.
Proof.
  intro Hnd.
  apply (forRange_key "temperature" propsBody
           (fun v o => typedTemp <- assertMap v ;; forRange typedTemp tempBody o));
    [ | reflexivity | exact Hnd ].
  intros [k v] s env' w' Hne. simpl in Hne. unfold propsBody.
  apply String.eqb_neq in Hne. now rewrite Hne.
Qed.

Lemma observation_loop m o env w :
  nodupb (keys m) = true ->
  forRange m observationBody o env w =
    match mapLookup "properties" m with
    | Some v =>
        (typedProps <- assertMap v ;; forRange typedProps propsBody o) env w
    | None => (Ret o, w)
    end.
Proof.
  intro Hnd.
  apply (forRange_key "properties" observationBody
           (fun v o =>
              typedProps <- assertMap v ;; forRange typedProps propsBody o));
    [ | reflexivity | exact Hnd ].
  intros [k v] s env' w' Hne. simpl in Hne. unfold observationBody.
  apply String.eqb_neq in Hne. now rewrite Hne.
Qed.

(** The fetcher on a response that is a map. *)
Lemma getLatestObservation_document station env w m :
  httpGet env (List.length (requests w)) (observationURL station)
    = Response (Document (JObj m)) ->
  wf (JObj m) = true ->
  getLatestObservation station env w =
    match mapLookup "properties" m with
    | Some v =>
        (typedProps <- assertMap v ;;
         forRange typedProps propsBody (WeatherObservation.mk station 0%float))
          env (requested (observationURL station) w)
    | None =>
        (Ret (WeatherObservation.mk station 0%float),
         requested (observationURL station) w)
    end.
Proof.
  intros Hget Hwf. destruct (wf_JObj _ Hwf) as [Hnm _].
  unfold getLatestObservation, bind at 1 2.
  rewrite (getJSONData_document _ _ _ _ Hget). cbn [assertMap ret].
  now apply observation_loop.
Qed.

(** The fetcher on a response whose "properties.temperature" is a map
    [t]: only the value under "value" counts. *)
Lemma getLatestObservation_temperature station env w m p t :
  httpGet env (List.length (requests w)) (observationURL station)
    = Response (Document (JObj m)) ->
  wf (JObj m) = true ->
  mapLookup "properties" m = Some (JObj p) ->
  mapLookup "temperature" p = Some (JObj t) ->
  getLatestObservation station env w =
    match mapLookup "value" t with
    | Some v =>
        (x <- assertFloat64 v ;;
         ret (WeatherObservation.mk station x))
          env (requested (observationURL station) w)
    | None =>
        (Ret (WeatherObservation.mk station 0%float),
         requested (observationURL station) w)
    end.
Proof.
  intros Hget Hwf Hp Ht.
  destruct (wf_JObj _ Hwf) as [_ Hsub].
  destruct (wf_JObj _ (Hsub _ _ Hp)) as [Hnp Hsubp].
  destruct (wf_JObj _ (Hsubp _ _ Ht)) as [Hnt _].
  rewrite (getLatestObservation_document _ _ _ _ Hget Hwf), Hp.
  unfold bind at 1. cbn [assertMap ret].
  rewrite (props_loop _ _ _ _ Hnp), Ht.
  unfold bind at 1. cbn [assertMap ret].
  rewrite (temp_loop _ _ _ _ Hnt).
  destruct (mapLookup "value" t) as [v|]; reflexivity.
Qed.

Lemma requested_length url w :
  List.length (requests (requested url w)) = S (List.length (requests w)).
Proof. simpl. rewrite length_app. simpl. lia. Qed.

(** ** The functions on concrete responses *)

(** A latitude that arrives as a string panics at the assertion to
    float64. *)
Example latLonForZip_latitude_string :
  fst (latLonForZip "20500"
         (constEnv (Response (Document
            (geocodingResponse [("latitude", JStr "38.9")]))))
         freshWorld)
  = Panic (TypeAssertionError TString TFloat64).
Proof. reflexivity. Qed.

(** No "fields" in the first record: the zero location. *)
Example latLonForZip_no_fields :
  fst (latLonForZip "20500"
         (constEnv (Response (Document
            (JObj [("records", JArr [JObj [("datasetid", JStr "us-zip")]])]))))
         freshWorld)
  = Ret LocationData.zero.
Proof. reflexivity. Qed.

(** Only the first station is looked at. *)
Example findNearestStation_first_of_two :
  fst (findNearestStation 38.9%float (-77.03)%float
         (constEnv (Response (Document
            (JObj [("observationStations",
                    JArr [JStr "https://api.weather.gov/stations/KDCA";
                          JStr "https://api.weather.gov/stations/KIAD"])]))))
         freshWorld)
  = Ret "KDCA".
Proof. reflexivity. Qed.

(** "properties" that is not a map panics. *)
Example getLatestObservation_properties_string :
  fst (getLatestObservation "KDCA"
         (constEnv (Response (Document (JObj [("properties", JStr "none")]))))
         freshWorld)
  = Panic (TypeAssertionError TString TMap).
Proof. reflexivity. Qed.

(** A failed first fetch ends the whole lookup in a panic, after one
    request and one diagnostic line. *)
Example getObservationForZip_fetch_failed :
  getObservationForZip "20500" (constEnv (GetError "timeout")) freshWorld
  = (Panic (TypeAssertionError TNil TMap),
     mkWorld [geocodeURL "20500"]
       [("There was an error making the request to the location info API: timeout"
           ++ newline)%string]).
Proof. reflexivity. Qed.

(** ** The claims *)

(** C1. With the geocoding, stations and observation responses of the
    scenario (the five fields in whatever order the runtime iterates over
    them), [getObservationForZip "20500"] returns
    [LookupData{ZipCode:"20500", City:"Washington", State:"DC",
    Temperature:21.1, Station:"KDCA"}], after exactly the three requests and
    without printing anything. *)
Theorem getObservationForZip_scenario env w fields :
  Permutation fields scenarioFields ->
  httpGet env (List.length (requests w)) (geocodeURL "20500")
    = Response (Document (geocodingResponse fields)) ->
  httpGet env (S (List.length (requests w)))
      (pointsURL env 38.9%float (-77.03)%float)
    = Response (Document stationsResponse) ->
  httpGet env (S (S (List.length (requests w)))) (observationURL "KDCA")
    = Response (Document observationResponse) ->
  getObservationForZip "20500" env w =
    (Ret (LookupData.mk "20500" "Washington" "DC" 21.1%float "KDCA"),
     mkWorld
       (requests w ++
          [geocodeURL "20500"; pointsURL env 38.9%float (-77.03)%float;
           observationURL "KDCA"])%list
       (stdout w)).
Proof.
  intros Hperm Hgeo Hst Hobs.
  destruct (Permutation_sameMap _ _ Hperm eq_refl) as [Hnd Hsame].
  assert (E1 : latLonForZip "20500" env w =
               (Ret (LocationData.mk "Washington" "DC" "20500"
                       38.9%float (-77.03)%float),
                requested (geocodeURL "20500") w)).
  { rewrite (latLonForZip_fields _ _ _ _ [("fields", JObj fields)] [] fields Hgeo).
    - unfold stringField, numberField. now rewrite !Hsame.
    - unfold keys in Hnd. simpl. rewrite Hnd, !andb_true_r.
      apply forallb_forall. intros [k v] Hin.
      eapply Permutation_in in Hin; [|exact Hperm].
      simpl in Hin. decompose [or] Hin; try contradiction;
        match goal with H : _ = (k, v) |- _ => inversion H; reflexivity end.
    - reflexivity.
    - reflexivity.
    - unfold fieldsWellTyped. now rewrite !Hsame. }
  assert (E2 : findNearestStation 38.9%float (-77.03)%float env
                 (requested (geocodeURL "20500") w) =
               (Ret "KDCA",
                requested (pointsURL env 38.9%float (-77.03)%float)
                  (requested (geocodeURL "20500") w))).
  { rewrite (findNearestStation_document _ _ _ _
               [("observationStations",
                 JArr [JStr "https://api.weather.gov/stations/KDCA"])]).
    - reflexivity.
    - rewrite requested_length. exact Hst.
    - reflexivity. }
  assert (E3 : getLatestObservation "KDCA" env
                 (requested (pointsURL env 38.9%float (-77.03)%float)
                    (requested (geocodeURL "20500") w)) =
               (Ret (WeatherObservation.mk "KDCA" 21.1%float),
                requested (observationURL "KDCA")
                  (requested (pointsURL env 38.9%float (-77.03)%float)
                     (requested (geocodeURL "20500") w)))).
  { rewrite (getLatestObservation_temperature _ _ _
               [("properties",
                 JObj [("temperature", JObj [("value", JNum 21.1%float)])])]
               [("temperature", JObj [("value", JNum 21.1%float)])]
               [("value", JNum 21.1%float)]).
    - reflexivity.
    - rewrite !requested_length. exact Hobs.
    - reflexivity.
    - reflexivity.
    - reflexivity. }
  unfold getObservationForZip, bind. rewrite E1.
  cbn [LocationData.Latitude LocationData.Longitude]. rewrite E2, E3.
  unfold ret, requested. cbn [requests stdout].
  rewrite <- !app_assoc. reflexivity.
Qed.

Lemma getObservationForZip_scenario_witness :
  getObservationForZip "20500" scenarioEnv freshWorld =
    (Ret (LookupData.mk "20500" "Washington" "DC" 21.1%float "KDCA"),
     mkWorld
       [geocodeURL "20500"; pointsURL scenarioEnv 38.9%float (-77.03)%float;
        observationURL "KDCA"]
       []).
Proof.
  apply (getObservationForZip_scenario scenarioEnv freshWorld scenarioFields);
    [apply Permutation_refl | reflexivity | reflexivity | reflexivity].
Defined.

(** C2. When the stations response is a map in which "observationStations"
    is absent or an empty sequence, [findNearestStation] returns the empty
    string; it does not panic. *)
Theorem findNearestStation_no_stations env w lat lon m :
  httpGet env (List.length (requests w)) (pointsURL env lat lon)
    = Response (Document (JObj m)) ->
  wf (JObj m) = true ->
  mapLookup "observationStations" m = None \/
  mapLookup "observationStations" m = Some (JArr []) ->
  findNearestStation lat lon env w =
    (Ret "", requested (pointsURL env lat lon) w).
Proof.
  intros Hget Hwf Hst.
  rewrite (findNearestStation_document _ _ _ _ _ Hget Hwf).
  destruct Hst as [-> | ->]; reflexivity.
Qed.

Lemma findNearestStation_no_stations_witness :
  findNearestStation 0%float 0%float
    (constEnv (Response (Document (JObj [("observationStations", JArr [])]))))
    freshWorld
  = (Ret "", mkWorld ["https://api.weather.gov/points/0,0/stations"] []).
Proof.
  apply (findNearestStation_no_stations
           (constEnv (Response (Document (JObj [("observationStations", JArr [])]))))
           freshWorld 0%float 0%float [("observationStations", JArr [])]);
    [reflexivity | reflexivity | right; reflexivity].
Defined.

(** C3. When the observation response is a map in which the path
    "properties.temperature.value" is absent, [getLatestObservation]
    returns the observation with temperature 0 and the station it was
    given. *)
Theorem getLatestObservation_value_absent station env w m :
  httpGet env (List.length (requests w)) (observationURL station)
    = Response (Document (JObj m)) ->
  wf (JObj m) = true ->
  valueAbsent m ->
  getLatestObservation station env w =
    (Ret (WeatherObservation.mk station 0%float),
     requested (observationURL station) w).
Proof.
  intros Hget Hwf [Hp | [p [Hp [Ht | [t [Ht Hv]]]]]].
  - rewrite (getLatestObservation_document _ _ _ _ Hget Hwf). now rewrite Hp.
  - rewrite (getLatestObservation_document _ _ _ _ Hget Hwf), Hp.
    destruct (wf_JObj _ Hwf) as [_ Hsub].
    destruct (wf_JObj _ (Hsub _ _ Hp)) as [Hnp _].
    unfold bind. cbn [assertMap ret].
    rewrite (props_loop _ _ _ _ Hnp). now rewrite Ht.
  - rewrite (getLatestObservation_temperature _ _ _ _ _ _ Hget Hwf Hp Ht).
    now rewrite Hv.
Qed.

Lemma getLatestObservation_value_absent_witness :
  getLatestObservation "KDCA"
    (constEnv (Response (Document
       (JObj [("properties", JObj [("temperature", JObj [])])]))))
    freshWorld
  = (Ret (WeatherObservation.mk "KDCA" 0%float),
     mkWorld ["https://api.weather.gov/stations/KDCA/observations/latest"] []).
Proof.
  apply (getLatestObservation_value_absent "KDCA"
           (constEnv (Response (Document
              (JObj [("properties", JObj [("temperature", JObj [])])]))))
           freshWorld [("properties", JObj [("temperature", JObj [])])]);
    [reflexivity | reflexivity |].
  right. exists [("temperature", JObj [])]. split; [reflexivity|].
  right. exists []. split; reflexivity.
Defined.

(** C4, as the code has it.  On a response with a non-empty "records"
    array whose [records[0].fields] is a well-typed map carrying "zip",
    [latLonForZip] returns a location whose zip is the echoed one and whose
    latitude and longitude are the numbers under "latitude" and "longitude",
    copied unchecked (0 when absent), whatever their values; so they lie in
    [-90,90] and [-180,180] whenever the numbers of the response do, and
    only then. *)
Theorem latLonForZip_zip_and_coordinates zip env w m rec rest f z :
  httpGet env (List.length (requests w)) (geocodeURL zip)
    = Response (Document (JObj m)) ->
  wf (JObj m) = true ->
  mapLookup "records" m = Some (JArr (JObj rec :: rest)) ->
  mapLookup "fields" rec = Some (JObj f) ->
  fieldsWellTyped f = true ->
  mapLookup "zip" f = Some (JStr z) ->
  exists loc,
    latLonForZip zip env w = (Ret loc, requested (geocodeURL zip) w) /\
    LocationData.Zip loc = z /\
    LocationData.Latitude loc = numberField "latitude" f 0%float /\
    LocationData.Longitude loc = numberField "longitude" f 0%float /\
    (forall x, mapLookup "latitude" f = Some (JNum x) ->
               LocationData.Latitude loc = x) /\
    (forall x, mapLookup "longitude" f = Some (JNum x) ->
               LocationData.Longitude loc = x) /\
    latitudeInRange (LocationData.Latitude loc)
      = latitudeInRange (numberField "latitude" f 0%float) /\
    longitudeInRange (LocationData.Longitude loc)
      = longitudeInRange (numberField "longitude" f 0%float) /\
    ((forall x, mapLookup "latitude" f = Some (JNum x) ->
                latitudeInRange x = true) ->
     latitudeInRange (LocationData.Latitude loc) = true) /\
    ((forall x, mapLookup "longitude" f = Some (JNum x) ->
                longitudeInRange x = true) ->
     longitudeInRange (LocationData.Longitude loc) = true).
Proof.
  intros Hget Hwf Hrecs Hfields Htyped Hz.
  rewrite (latLonForZip_fields _ _ _ _ _ _ _ Hget Hwf Hrecs Hfields Htyped).
  eexists. split; [reflexivity|]. cbn [LocationData.Zip LocationData.Latitude
    LocationData.Longitude].
  split; [unfold stringField; now rewrite Hz|].
  split; [reflexivity|]. split; [reflexivity|].
  split; [intros x Hx; unfold numberField; now rewrite Hx|].
  split; [intros x Hx; unfold numberField; now rewrite Hx|].
  split; [reflexivity|]. split; [reflexivity|].
  split; intro Hr; unfold numberField.
  - destruct (mapLookup "latitude" f) as [[| | x | | |]|]; auto.
  - destruct (mapLookup "longitude" f) as [[| | x | | |]|]; auto.
Qed.

Lemma latLonForZip_zip_and_coordinates_witness :
  exists loc,
    latLonForZip "20500"
      (constEnv (Response (Document (geocodingResponse polarFields))))
      freshWorld
    = (Ret loc, requested (geocodeURL "20500") freshWorld) /\
    LocationData.Zip loc = "20500" /\
    LocationData.Latitude loc = numberField "latitude" polarFields 0%float /\
    LocationData.Longitude loc = numberField "longitude" polarFields 0%float /\
    (forall x, mapLookup "latitude" polarFields = Some (JNum x) ->
               LocationData.Latitude loc = x) /\
    (forall x, mapLookup "longitude" polarFields = Some (JNum x) ->
               LocationData.Longitude loc = x) /\
    latitudeInRange (LocationData.Latitude loc)
      = latitudeInRange (numberField "latitude" polarFields 0%float) /\
    longitudeInRange (LocationData.Longitude loc)
      = longitudeInRange (numberField "longitude" polarFields 0%float) /\
    ((forall x, mapLookup "latitude" polarFields = Some (JNum x) ->
                latitudeInRange x = true) ->
     latitudeInRange (LocationData.Latitude loc) = true) /\
    ((forall x, mapLookup "longitude" polarFields = Some (JNum x) ->
                longitudeInRange x = true) ->
     longitudeInRange (LocationData.Longitude loc) = true).
Proof.
  apply (latLonForZip_zip_and_coordinates "20500"
           (constEnv (Response (Document (geocodingResponse polarFields))))
           freshWorld
           [("records", JArr [JObj [("fields", JObj polarFields)]])]
           [("fields", JObj polarFields)] [] polarFields "20500");
    reflexivity.
Defined.

(** C4 as stated fails: the response is well typed and its "records" array
    is not empty, and the latitude 91.5 it carries comes back as it is,
    outside [-90,90]. *)
Lemma latLonForZip_latitude_out_of_range :
  wf (geocodingResponse polarFields) = true /\
  fieldsWellTyped polarFields = true /\
  latLonForZip "20500"
    (constEnv (Response (Document (geocodingResponse polarFields))))
    freshWorld
  = (Ret (LocationData.mk "Washington" "DC" "20500" 91.5%float (-77.03)%float),
     mkWorld [geocodeURL "20500"] []) /\
  latitudeInRange 91.5%float = false.
Proof. repeat split; reflexivity. Qed.

(** C5. On a response whose "records" array is non-empty and whose
    [records[0].fields] is a map in which city, zip, state are strings and
    latitude, longitude are numbers whenever they are present,
    [latLonForZip] returns a location in which each of the five keys that is
    present is copied to its field and each one that is absent leaves its
    field at the zero value; whatever else "fields" holds is ignored. *)
Theorem latLonForZip_extraction zip env w m rec rest f :
  httpGet env (List.length (requests w)) (geocodeURL zip)
    = Response (Document (JObj m)) ->
  wf (JObj m) = true ->
  mapLookup "records" m = Some (JArr (JObj rec :: rest)) ->
  mapLookup "fields" rec = Some (JObj f) ->
  fieldsWellTyped f = true ->
  exists loc,
    latLonForZip zip env w = (Ret loc, requested (geocodeURL zip) w) /\
    (forall s, mapLookup "city" f = Some (JStr s) -> LocationData.City loc = s) /\
    (mapLookup "city" f = None -> LocationData.City loc = "") /\
    (forall s, mapLookup "zip" f = Some (JStr s) -> LocationData.Zip loc = s) /\
    (mapLookup "zip" f = None -> LocationData.Zip loc = "") /\
    (forall s, mapLookup "state" f = Some (JStr s) ->
               LocationData.State loc = s) /\
    (mapLookup "state" f = None -> LocationData.State loc = "") /\
    (forall x, mapLookup "latitude" f = Some (JNum x) ->
               LocationData.Latitude loc = x) /\
    (mapLookup "latitude" f = None -> LocationData.Latitude loc = 0%float) /\
    (forall x, mapLookup "longitude" f = Some (JNum x) ->
               LocationData.Longitude loc = x) /\
    (mapLookup "longitude" f = None -> LocationData.Longitude loc = 0%float).
Proof.
  intros Hget Hwf Hrecs Hfields Htyped.
  rewrite (latLonForZip_fields _ _ _ _ _ _ _ Hget Hwf Hrecs Hfields Htyped).
  eexists. split; [reflexivity|].
  cbn [LocationData.City LocationData.State LocationData.Zip
       LocationData.Latitude LocationData.Longitude].
  unfold stringField, numberField.
  repeat split; intros; match goal with H : mapLookup _ f = _ |- _ =>
    rewrite H; reflexivity end.
Qed.

Lemma latLonForZip_extraction_witness :
  exists loc,
    latLonForZip "20500"
      (constEnv (Response (Document (geocodingResponse polarFields))))
      freshWorld
    = (Ret loc, requested (geocodeURL "20500") freshWorld) /\
    (forall s, mapLookup "city" polarFields = Some (JStr s) ->
               LocationData.City loc = s) /\
    (mapLookup "city" polarFields = None -> LocationData.City loc = "") /\
    (forall s, mapLookup "zip" polarFields = Some (JStr s) ->
               LocationData.Zip loc = s) /\
    (mapLookup "zip" polarFields = None -> LocationData.Zip loc = "") /\
    (forall s, mapLookup "state" polarFields = Some (JStr s) ->
               LocationData.State loc = s) /\
    (mapLookup "state" polarFields = None -> LocationData.State loc = "") /\
    (forall x, mapLookup "latitude" polarFields = Some (JNum x) ->
               LocationData.Latitude loc = x) /\
    (mapLookup "latitude" polarFields = None ->
     LocationData.Latitude loc = 0%float) /\
    (forall x, mapLookup "longitude" polarFields = Some (JNum x) ->
               LocationData.Longitude loc = x) /\
    (mapLookup "longitude" polarFields = None ->
     LocationData.Longitude loc = 0%float).
Proof.
  apply (latLonForZip_extraction "20500"
           (constEnv (Response (Document (geocodingResponse polarFields))))
           freshWorld
           [("records", JArr [JObj [("fields", JObj polarFields)]])]
           [("fields", JObj polarFields)] [] polarFields);
    reflexivity.
Defined.

(** C6. When the fetch fails, so that [getJSONData] hands out [nil], each
    of [latLonForZip], [findNearestStation] and [getLatestObservation]
    panics at its first type assertion, [nil] not being a map; none returns
    a zero-valued result. *)
Theorem extractors_panic_on_nil env w :
  (forall zip,
     fetchFailed (httpGet env (List.length (requests w)) (geocodeURL zip)) = true ->
     latLonForZip zip env w =
       (Panic (TypeAssertionError TNil TMap),
        mkWorld (requests w ++ [geocodeURL zip])%list
          (stdout w ++
             diagnostic (httpGet env (List.length (requests w)) (geocodeURL zip)))%list))
  /\
  (forall lat lon,
     fetchFailed
       (httpGet env (List.length (requests w)) (pointsURL env lat lon)) = true ->
     findNearestStation lat lon env w =
       (Panic (TypeAssertionError TNil TMap),
        mkWorld (requests w ++ [pointsURL env lat lon])%list
          (stdout w ++
             diagnostic
               (httpGet env (List.length (requests w)) (pointsURL env lat lon)))%list))
  /\
  (forall station,
     fetchFailed
       (httpGet env (List.length (requests w)) (observationURL station)) = true ->
     getLatestObservation station env w =
       (Panic (TypeAssertionError TNil TMap),
        mkWorld (requests w ++ [observationURL station])%list
          (stdout w ++
             diagnostic
               (httpGet env (List.length (requests w)) (observationURL station)))%list)).
Proof.
  split; [|split].
  - intros zip H. unfold latLonForZip, bind.
    now rewrite (getJSONData_failed _ _ _ H).
  - intros lat lon H. unfold findNearestStation, bind, sprintfPoints.
    now rewrite (getJSONData_failed _ _ _ H).
  - intros station H. unfold getLatestObservation, bind.
    now rewrite (getJSONData_failed _ _ _ H).
Qed.

Lemma extractors_panic_on_nil_witness :
  fst (latLonForZip "20500" (constEnv (GetError "timeout")) freshWorld)
    = Panic (TypeAssertionError TNil TMap) /\
  fst (findNearestStation 0%float 0%float
         (constEnv (Response (Malformed "unexpected EOF"))) freshWorld)
    = Panic (TypeAssertionError TNil TMap) /\
  fst (getLatestObservation "KDCA" (constEnv (GetError "timeout")) freshWorld)
    = Panic (TypeAssertionError TNil TMap).
Proof.
  split; [|split].
  - rewrite (proj1 (extractors_panic_on_nil
                      (constEnv (GetError "timeout")) freshWorld)
               "20500" eq_refl).
    reflexivity.
  - rewrite (proj1 (proj2 (extractors_panic_on_nil
                      (constEnv (Response (Malformed "unexpected EOF")))
                      freshWorld))
               0%float 0%float eq_refl).
    reflexivity.
  - rewrite (proj2 (proj2 (extractors_panic_on_nil
                      (constEnv (GetError "timeout")) freshWorld))
               "KDCA" eq_refl).
    reflexivity.
Defined.

(** C7. When the geocoding response is a map whose "records" is an empty
    array, [latLonForZip] panics with index 0 out of range; it returns no
    location. *)
Theorem latLonForZip_empty_records zip env w m :
  httpGet env (List.length (requests w)) (geocodeURL zip)
    = Response (Document (JObj m)) ->
  wf (JObj m) = true ->
  mapLookup "records" m = Some (JArr []) ->
  latLonForZip zip env w =
    (Panic (IndexOutOfRange 0 0), requested (geocodeURL zip) w).
Proof.
  intros Hget Hwf Hrecs. destruct (wf_JObj _ Hwf) as [Hnm _].
  unfold latLonForZip, bind. rewrite (getJSONData_document _ _ _ _ Hget).
  cbn [assertMap ret]. rewrite (response_loop _ _ _ _ Hnm), Hrecs.
  unfold bind, mapIndex. rewrite Hrecs. reflexivity.
Qed.

Lemma latLonForZip_empty_records_witness :
  latLonForZip "00000"
    (constEnv (Response (Document (JObj [("nhits", JNum 0%float);
                                         ("records", JArr [])]))))
    freshWorld
  = (Panic (IndexOutOfRange 0 0), mkWorld [geocodeURL "00000"] []).
Proof.
  apply (latLonForZip_empty_records "00000"
           (constEnv (Response (Document (JObj [("nhits", JNum 0%float);
                                                ("records", JArr [])]))))
           freshWorld [("nhits", JNum 0%float); ("records", JArr [])]);
    reflexivity.
Defined.

(** C8. When the GET fails, or succeeds with a body that does not decode,
    [getJSONData] returns [nil] as an ordinary value, having written one
    diagnostic line to standard output. *)
Theorem getJSONData_soft_failure url env w :
  (forall err,
     httpGet env (List.length (requests w)) url = GetError err ->
     getJSONData url env w =
       (Ret JNull,
        mkWorld (requests w ++ [url])%list
          (stdout w ++
             [("There was an error making the request to the location info API: "
                 ++ err ++ newline)%string])%list))
  /\
  (forall err,
     httpGet env (List.length (requests w)) url = Response (Malformed err) ->
     getJSONData url env w =
       (Ret JNull,
        mkWorld (requests w ++ [url])%list
          (stdout w ++
             [("There was an error processing JSON data: "
                 ++ err ++ newline)%string])%list)).
Proof.
  split; intros err H; rewrite getJSONData_failed; rewrite H; reflexivity.
Qed.

Lemma getJSONData_soft_failure_witness :
  getJSONData "http://localhost/" (constEnv (GetError "connection refused"))
    freshWorld
  = (Ret JNull,
     mkWorld ["http://localhost/"]
       ["There was an error making the request to the location info API: connection refused"
          ++ newline])
  /\
  getJSONData "http://localhost/" (constEnv (Response (Malformed "EOF")))
    freshWorld
  = (Ret JNull,
     mkWorld ["http://localhost/"]
       ["There was an error processing JSON data: EOF" ++ newline]).
Proof.
  split.
  - apply (proj1 (getJSONData_soft_failure "http://localhost/"
                    (constEnv (GetError "connection refused")) freshWorld)
             "connection refused" eq_refl).
  - apply (proj2 (getJSONData_soft_failure "http://localhost/"
                    (constEnv (Response (Malformed "EOF"))) freshWorld)
             "EOF" eq_refl).
Defined.

(** C9, as the code has it.  When the first element of
    "observationStations" is a string of at least four bytes,
    [findNearestStation] returns exactly its trailing four bytes; and a
    second run on an equal response (the same map, in whatever iteration
    order) ends as the first one does. *)
Theorem findNearestStation_trailing4 env w lat lon m s rest :
  httpGet env (List.length (requests w)) (pointsURL env lat lon)
    = Response (Document (JObj m)) ->
  wf (JObj m) = true ->
  mapLookup "observationStations" m = Some (JArr (JStr s :: rest)) ->
  4 <= String.length s ->
  (exists id,
     findNearestStation lat lon env w =
       (Ret id, requested (pointsURL env lat lon) w) /\
     trailing4 s id) /\
  (forall env' w' lat' lon' m',
     httpGet env' (List.length (requests w')) (pointsURL env' lat' lon')
       = Response (Document (JObj m')) ->
     wf (JObj m') = true ->
     sameMap m m' ->
     fst (findNearestStation lat' lon' env' w') =
     fst (findNearestStation lat lon env w)).
Proof.
  intros Hget Hwf Hst Hlen. split.
  - rewrite (findNearestStation_document _ _ _ _ _ Hget Hwf), Hst.
    rewrite stationsStep_string. unfold bind.
    destruct (sliceFrom_trailing4 s env (requested (pointsURL env lat lon) w) Hlen)
      as [id [Hid Ht]].
    exists id. rewrite Hid. split; [reflexivity | exact Ht].
  - intros env' w' lat' lon' m' Hget' Hwf' Hsame.
    rewrite (findNearestStation_document _ _ _ _ _ Hget Hwf).
    rewrite (findNearestStation_document _ _ _ _ _ Hget' Hwf').
    rewrite <- (Hsame "observationStations").
    apply pure_fst, pure_stationsStep.
Qed.

Lemma findNearestStation_trailing4_witness :
  (exists id,
     findNearestStation 38.9%float (-77.03)%float
       (constEnv (Response (Document stationsResponse))) freshWorld
     = (Ret id,
        requested
          (pointsURL (constEnv (Response (Document stationsResponse)))
             38.9%float (-77.03)%float) freshWorld) /\
     trailing4 "https://api.weather.gov/stations/KDCA" id) /\
  (forall env' w' lat' lon' m',
     httpGet env' (List.length (requests w')) (pointsURL env' lat' lon')
       = Response (Document (JObj m')) ->
     wf (JObj m') = true ->
     sameMap
       [("observationStations",
         JArr [JStr "https://api.weather.gov/stations/KDCA"])] m' ->
     fst (findNearestStation lat' lon' env' w') =
     fst (findNearestStation 38.9%float (-77.03)%float
            (constEnv (Response (Document stationsResponse))) freshWorld)).
Proof.
  apply (findNearestStation_trailing4
           (constEnv (Response (Document stationsResponse))) freshWorld
           38.9%float (-77.03)%float
           [("observationStations",
             JArr [JStr "https://api.weather.gov/stations/KDCA"])]
           "https://api.weather.gov/stations/KDCA" []);
    [reflexivity | reflexivity | reflexivity | simpl; lia].
Defined.

(** C9 as stated fails: the first station is the string "abc", and
    [findNearestStation] panics on the slice instead of returning an
    identifier. *)
Lemma findNearestStation_short_station :
  mapLookup "observationStations" [("observationStations", JArr [JStr "abc"])]
    = Some (JArr [JStr "abc"]) /\
  findNearestStation 38.9%float (-77.03)%float
    (constEnv (Response (Document
       (JObj [("observationStations", JArr [JStr "abc"])]))))
    freshWorld
  = (Panic (SliceBoundsOutOfRange (-1) 3),
     mkWorld ["https://api.weather.gov/points/0,0/stations"] []).
Proof. split; reflexivity. Qed.

(** C10. When the observation response carries
    "properties.temperature.value" and the value is null,
    [getLatestObservation] panics at the assertion to float64; the
    temperature does not fall back to 0. *)
Theorem getLatestObservation_null_value station env w m p t :
  httpGet env (List.length (requests w)) (observationURL station)
    = Response (Document (JObj m)) ->
  wf (JObj m) = true ->
  mapLookup "properties" m = Some (JObj p) ->
  mapLookup "temperature" p = Some (JObj t) ->
  mapLookup "value" t = Some JNull ->
  getLatestObservation station env w =
    (Panic (TypeAssertionError TNil TFloat64),
     requested (observationURL station) w).
Proof.
  intros Hget Hwf Hp Ht Hv.
  rewrite (getLatestObservation_temperature _ _ _ _ _ _ Hget Hwf Hp Ht).
  now rewrite Hv.
Qed.

Lemma getLatestObservation_null_value_witness :
  getLatestObservation "KDCA"
    (constEnv (Response (Document
       (JObj [("properties",
               JObj [("temperature", JObj [("value", JNull)])])]))))
    freshWorld
  = (Panic (TypeAssertionError TNil TFloat64),
     mkWorld ["https://api.weather.gov/stations/KDCA/observations/latest"] []).
Proof.
  apply (getLatestObservation_null_value "KDCA"
           (constEnv (Response (Document
              (JObj [("properties",
                      JObj [("temperature", JObj [("value", JNull)])])]))))
           freshWorld
           [("properties", JObj [("temperature", JObj [("value", JNull)])])]
           [("temperature", JObj [("value", JNull)])]
           [("value", JNull)]);
    reflexivity.
Defined.

(** ** Binds, loops and purity once more *)

Lemma bind_Ret_inv {A B} (c : M A) (k : A -> M B) env w b w' :
  bind c k env w = (Ret b, w') ->
  exists a w1, c env w = (Ret a, w1) /\ k a env w1 = (Ret b, w').
Proof.
  unfold bind. destruct (c env w) as [[a|e] w1]; [|discriminate].
  intro H. now exists a, w1.
Qed.

Lemma pure_forRange {X St} (body : X -> St -> M St) xs :
  (forall x s, pure (body x s)) -> forall s, pure (forRange xs body s).
Proof.
  intro Hb. induction xs as [|x xs IH]; intro s; simpl.
  - apply pure_ret.
  - apply pure_bind; [apply Hb | exact IH].
Qed.

Ltac pure_branches :=
  repeat match goal with
         | |- context [if ?b then _ else _] => destruct b
         end;
  repeat (apply pure_bind; [|intro]); auto with pure.

Lemma pure_fieldsBody f kv loc : pure (fieldsBody f kv loc).
Proof. unfold fieldsBody. cbv zeta. pure_branches. Qed.

Lemma pure_recordBody rec kv loc : pure (recordBody rec kv loc).
Proof.
  unfold recordBody. destruct (_ =? _); [|apply pure_ret].
  apply pure_bind; [apply pure_assertMap|]. intro f.
  apply pure_forRange. intros. apply pure_fieldsBody.
Qed.

Lemma pure_responseBody m kv loc : pure (responseBody m kv loc).
Proof.
  unfold responseBody. destruct (_ =? _); [|apply pure_ret].
  apply pure_bind; [apply pure_assertSlice|]. intro xs.
  apply pure_bind; [apply pure_indexSlice|]. intro r0.
  apply pure_bind; [apply pure_assertMap|]. intro rec.
  apply pure_forRange. intros. apply pure_recordBody.
Qed.

Lemma pure_tempBody kv o : pure (tempBody kv o).
Proof. destruct kv as [k v]. unfold tempBody. pure_branches. Qed.

Lemma pure_propsBody kv o : pure (propsBody kv o).
Proof.
  destruct kv as [k v]. unfold propsBody. destruct (_ =? _); [|apply pure_ret].
  apply pure_bind; [apply pure_assertMap|]. intro t.
  apply pure_forRange. intros. apply pure_tempBody.
Qed.

Lemma pure_observationBody kv o : pure (observationBody kv o).
Proof.
  destruct kv as [k v]. unfold observationBody.
  destruct (_ =? _); [|apply pure_ret].
  apply pure_bind; [apply pure_assertMap|]. intro p.
  apply pure_forRange. intros. apply pure_propsBody.
Qed.

Lemma pure_pointsBody m kv s : pure (pointsBody m kv s).
Proof.
  unfold pointsBody. destruct (_ =? _); [|apply pure_ret].
  apply pure_bind; [apply pure_assertSlice|]. intro xs.
  apply pure_forRangeRet. intros. apply pure_stationsBody.
Qed.

(** A property of the loop state that every round keeps holds when the
    loop is left. *)
Lemma forRange_invariant {X St} (P : St -> Prop) (body : X -> St -> M St) :
  (forall x s env w s' w',
     P s -> body x s env w = (Ret s', w') -> P s') ->
  forall xs s env w s' w',
    P s -> forRange xs body s env w = (Ret s', w') -> P s'.
Proof.
  intros Hb. induction xs as [|x xs IH]; intros s env w s' w' Hs H; simpl in H.
  - inversion H; subst. exact Hs.
  - apply bind_Ret_inv in H. destruct H as [s1 [w1 [H1 H2]]].
    eapply IH; [|exact H2]. eapply Hb; eauto.
Qed.

Lemma forRangeRet_invariant {X St R} (P : St -> Prop) (Q : R -> Prop)
    (body : X -> St -> M (flow St R)) :
  (forall x s env w f w',
     P s -> body x s env w = (Ret f, w') ->
     match f with Next s' => P s' | Return r => Q r end) ->
  forall xs s env w f w',
    P s -> forRangeRet xs body s env w = (Ret f, w') ->
    match f with Next s' => P s' | Return r => Q r end.
Proof.
  intros Hb. induction xs as [|x xs IH]; intros s env w f w' Hs H; simpl in H.
  - inversion H; subst. exact Hs.
  - apply bind_Ret_inv in H. destruct H as [f1 [w1 [H1 H2]]].
    pose proof (Hb _ _ _ _ _ _ Hs H1) as Hf1.
    destruct f1 as [s1|r1].
    + eapply IH; eauto.
    + inversion H2; subst. exact Hf1.
Qed.

(** ** The extractors after the fetch *)

Lemma latLonForZip_after_fetch zip env w j :
  httpGet env (List.length (requests w)) (geocodeURL zip)
    = Response (Document j) ->
  latLonForZip zip env w =
    (typedJSONData <- assertMap j ;;
     forRange typedJSONData (responseBody typedJSONData) LocationData.zero)
      env (requested (geocodeURL zip) w).
Proof.
  intro H. unfold latLonForZip. unfold bind at 1.
  now rewrite (getJSONData_document _ _ _ _ H).
Qed.

Lemma findNearestStation_after_fetch lat lon env w j :
  httpGet env (List.length (requests w)) (pointsURL env lat lon)
    = Response (Document j) ->
  findNearestStation lat lon env w =
    (typedJSONData <- assertMap j ;;
     f <- forRangeRet typedJSONData (pointsBody typedJSONData) "" ;;
     match f with
     | Return r => ret r
     | Next stationID => ret stationID
     end) env (requested (pointsURL env lat lon) w).
Proof.
  intro H. unfold findNearestStation. unfold bind at 1. unfold sprintfPoints.
  unfold bind at 1. now rewrite (getJSONData_document _ _ _ _ H).
Qed.

Lemma getLatestObservation_after_fetch station env w j :
  httpGet env (List.length (requests w)) (observationURL station)
    = Response (Document j) ->
  getLatestObservation station env w =
    (typedJSONData <- assertMap j ;;
     forRange typedJSONData observationBody
       (WeatherObservation.mk station 0%float))
      env (requested (observationURL station) w).
Proof.
  intro H. unfold getLatestObservation. unfold bind at 1.
  now rewrite (getJSONData_document _ _ _ _ H).
Qed.

Lemma pure_geocodeExtract j :
  pure (typedJSONData <- assertMap j ;;
        forRange typedJSONData (responseBody typedJSONData) LocationData.zero).
Proof.
  apply pure_bind; [apply pure_assertMap|]. intro m.
  apply pure_forRange. intros. apply pure_responseBody.
Qed.

Lemma pure_stationExtract j :
  pure (typedJSONData <- assertMap j ;;
        f <- forRangeRet typedJSONData (pointsBody typedJSONData) "" ;;
        match f with
        | Return r => ret r
        | Next stationID => ret stationID
        end).
Proof.
  apply pure_bind; [apply pure_assertMap|]. intro m.
  apply pure_bind.
  - apply pure_forRangeRet. intros. apply pure_pointsBody.
  - intros [s|r]; apply pure_ret.
Qed.

Lemma pure_observationExtract station j :
  pure (typedJSONData <- assertMap j ;;
        forRange typedJSONData observationBody
          (WeatherObservation.mk station 0%float)).
Proof.
  apply pure_bind; [apply pure_assertMap|]. intro m.
  apply pure_forRange. intros. apply pure_observationBody.
Qed.

(** Whatever the answer to its request, an extractor's world afterwards is
    the world of its fetch. *)
Lemma latLonForZip_world zip env w :
  snd (latLonForZip zip env w) =
    mkWorld (requests w ++ [geocodeURL zip])%list
      (stdout w ++
         diagnostic (httpGet env (List.length (requests w)) (geocodeURL zip)))%list.
Proof.
  destruct (httpGet env (List.length (requests w)) (geocodeURL zip))
    as [err|[err|j]] eqn:E.
  - unfold latLonForZip, bind. rewrite getJSONData_failed by now rewrite E.
    now rewrite E.
  - unfold latLonForZip, bind. rewrite getJSONData_failed by now rewrite E.
    now rewrite E.
  - rewrite (latLonForZip_after_fetch _ _ _ _ E).
    destruct (pure_geocodeExtract j) as [o Ho]. rewrite Ho. simpl.
    now rewrite app_nil_r.
Qed.

Lemma findNearestStation_world lat lon env w :
  snd (findNearestStation lat lon env w) =
    mkWorld (requests w ++ [pointsURL env lat lon])%list
      (stdout w ++
         diagnostic
           (httpGet env (List.length (requests w)) (pointsURL env lat lon)))%list.
Proof.
  destruct (httpGet env (List.length (requests w)) (pointsURL env lat lon))
    as [err|[err|j]] eqn:E.
  - unfold findNearestStation, bind, sprintfPoints.
    rewrite getJSONData_failed by now rewrite E. now rewrite E.
  - unfold findNearestStation, bind, sprintfPoints.
    rewrite getJSONData_failed by now rewrite E. now rewrite E.
  - rewrite (findNearestStation_after_fetch _ _ _ _ _ E).
    destruct (pure_stationExtract j) as [o Ho]. rewrite Ho. simpl.
    now rewrite app_nil_r.
Qed.

Lemma getLatestObservation_world station env w :
  snd (getLatestObservation station env w) =
    mkWorld (requests w ++ [observationURL station])%list
      (stdout w ++
         diagnostic
           (httpGet env (List.length (requests w)) (observationURL station)))%list.
Proof.
  destruct (httpGet env (List.length (requests w)) (observationURL station))
    as [err|[err|j]] eqn:E.
  - unfold getLatestObservation, bind.
    rewrite getJSONData_failed by now rewrite E. now rewrite E.
  - unfold getLatestObservation, bind.
    rewrite getJSONData_failed by now rewrite E. now rewrite E.
  - rewrite (getLatestObservation_after_fetch _ _ _ _ E).
    destruct (pure_observationExtract station j) as [o Ho]. rewrite Ho. simpl.
    now rewrite app_nil_r.
Qed.

(** ** The geocoder level by level *)

Lemma latLonForZip_records zip env w m v :
  httpGet env (List.length (requests w)) (geocodeURL zip)
    = Response (Document (JObj m)) ->
  wf (JObj m) = true ->
  mapLookup "records" m = Some v ->
  latLonForZip zip env w =
    (typedRecordsInfo <- assertSlice v ;;
     r0 <- indexSlice typedRecordsInfo 0 ;;
     typedInfoRecord <- assertMap r0 ;;
     forRange typedInfoRecord (recordBody typedInfoRecord) LocationData.zero)
      env (requested (geocodeURL zip) w).
Proof.
  intros Hget Hwf Hrecs. destruct (wf_JObj _ Hwf) as [Hnm _].
  rewrite (latLonForZip_after_fetch _ _ _ _ Hget).
  unfold bind at 1. cbn [assertMap ret].
  rewrite (response_loop _ _ _ _ Hnm), Hrecs.
  unfold mapIndex. now rewrite Hrecs.
Qed.

Lemma latLonForZip_first_record zip env w m rec rest :
  httpGet env (List.length (requests w)) (geocodeURL zip)
    = Response (Document (JObj m)) ->
  wf (JObj m) = true ->
  mapLookup "records" m = Some (JArr (JObj rec :: rest)) ->
  latLonForZip zip env w =
    match mapLookup "fields" rec with
    | Some v =>
        (typedLocData <- assertMap v ;;
         forRange typedLocData (fieldsBody typedLocData) LocationData.zero)
          env (requested (geocodeURL zip) w)
    | None => (Ret LocationData.zero, requested (geocodeURL zip) w)
    end.
Proof.
  intros Hget Hwf Hrecs.
  destruct (wf_JObj _ Hwf) as [_ Hsub].
  pose proof (wf_JArr_head _ _ (Hsub _ _ Hrecs)) as Hwrec.
  destruct (wf_JObj _ Hwrec) as [Hnrec _].
  rewrite (latLonForZip_records _ _ _ _ _ Hget Hwf Hrecs).
  unfold bind at 1. cbn [assertSlice ret].
  unfold bind at 1. unfold indexSlice.
  cbn [len List.length Z.of_nat Z.ltb Z.leb Z.compare orb].
  cbn [ret nth Z.to_nat]. unfold bind at 1. cbn [assertMap ret].
  rewrite (record_loop _ _ _ _ Hnrec). unfold mapIndex.
  destruct (mapLookup "fields" rec); reflexivity.
Qed.

Lemma fieldsWellTyped_false f :
  fieldsWellTyped f = false ->
  exists k v, mapLookup k f = Some v /\ illTyped k v = true.
Proof.
  unfold fieldsWellTyped. rewrite !andb_false_iff.
  intros [[[[H|H]|H]|H]|H];
    match type of H with
    | _ (mapLookup ?k f) = false =>
        destruct (mapLookup k f) as [v|] eqn:E; [|discriminate];
        exists k, v; split; [exact E|];
        destruct v; try discriminate; reflexivity
    end.
Qed.

Lemma fieldsBody_cases f kv loc env w :
  (exists loc', fieldsBody f kv loc env w = (Ret loc', w)) \/
  (exists dyn want,
     fieldsBody f kv loc env w = (Panic (TypeAssertionError dyn want), w) /\
     (want = TString \/ want = TFloat64)).
Proof.
  unfold fieldsBody. cbv zeta.
  repeat match goal with
         | |- context [if ?b then _ else _] => destruct b
         end;
    try (left; eexists; reflexivity);
    destruct (mapIndex f (fst kv)); cbn;
    solve [ left; eexists; reflexivity
          | right; eexists _, _; split; [reflexivity | auto] ].
Qed.

Lemma fieldsBody_illTyped f k v v' loc env w :
  mapLookup k f = Some v -> illTyped k v = true ->
  exists dyn want,
    fieldsBody f (k, v') loc env w = (Panic (TypeAssertionError dyn want), w) /\
    (want = TString \/ want = TFloat64).
Proof.
  intros Hk Hill. unfold illTyped in Hill. unfold fieldsBody, mapIndex.
  cbv zeta. cbn [fst]. rewrite Hk.
  destruct (String.eqb_spec k "city") as [->|_];
    [|destruct (String.eqb_spec k "zip") as [->|_];
      [|destruct (String.eqb_spec k "longitude") as [->|_];
        [|destruct (String.eqb_spec k "state") as [->|_];
          [|destruct (String.eqb_spec k "latitude") as [->|_]]]]];
    cbn in Hill; try discriminate;
    destruct v; try discriminate; cbn;
    eexists _, _; (split; [reflexivity | auto]).
Qed.

Lemma fields_loop_panics f k v :
  mapLookup k f = Some v -> illTyped k v = true ->
  forall l loc env w, In k (keys l) ->
  exists dyn want,
    forRange l (fieldsBody f) loc env w = (Panic (TypeAssertionError dyn want), w) /\
    (want = TString \/ want = TFloat64).
Proof.
  intros Hk Hill. induction l as [|[k' v'] l IH]; intros loc env w Hin.
  - contradiction.
  - simpl forRange. unfold bind.
    destruct (string_dec k' k) as [->|Hne].
    + destruct (fieldsBody_illTyped f k v v' loc env w Hk Hill)
        as [dyn [want [Hb Hw]]].
      rewrite Hb. now exists dyn, want.
    + destruct Hin as [Heq|Hin]; [simpl in Heq; contradiction|].
      destruct (fieldsBody_cases f (k', v') loc env w)
        as [[loc' Hb] | [dyn [want [Hb Hw]]]]; rewrite Hb.
      * now apply IH.
      * now exists dyn, want.
Qed.

(** ** Further properties of the code *)

(** X1. [getJSONData] never panics and makes exactly one request: it hands
    out the decoded document, or [nil] after a failure, and writes to
    standard output the diagnostic line of a failure and nothing else. *)
Theorem getJSONData_one_request url env w :
  getJSONData url env w =
    (Ret match httpGet env (List.length (requests w)) url with
         | Response (Document j) => j
         | _ => JNull
         end,
     mkWorld (requests w ++ [url])%list
       (stdout w ++ diagnostic (httpGet env (List.length (requests w)) url))%list).
Proof.
  destruct (httpGet env (List.length (requests w)) url) as [err|[err|j]] eqn:E.
  - rewrite getJSONData_failed by now rewrite E. now rewrite E.
  - rewrite getJSONData_failed by now rewrite E. now rewrite E.
  - rewrite (getJSONData_document _ _ _ _ E). unfold requested. simpl.
    now rewrite app_nil_r.
Qed.

(** X2. A response that decodes to anything but a map (null, a boolean, a
    number, a string, an array) makes each of the three extractors panic at
    its first type assertion, naming the dynamic type met; one request was
    made and nothing printed. *)
Theorem extractors_panic_on_non_map env w j :
  dynType j <> TMap ->
  (forall zip,
     httpGet env (List.length (requests w)) (geocodeURL zip)
       = Response (Document j) ->
     latLonForZip zip env w =
       (Panic (TypeAssertionError (dynType j) TMap),
        requested (geocodeURL zip) w))
  /\
  (forall lat lon,
     httpGet env (List.length (requests w)) (pointsURL env lat lon)
       = Response (Document j) ->
     findNearestStation lat lon env w =
       (Panic (TypeAssertionError (dynType j) TMap),
        requested (pointsURL env lat lon) w))
  /\
  (forall station,
     httpGet env (List.length (requests w)) (observationURL station)
       = Response (Document j) ->
     getLatestObservation station env w =
       (Panic (TypeAssertionError (dynType j) TMap),
        requested (observationURL station) w)).
Proof.
  intro Hj. split; [|split].
  - intros zip H. rewrite (latLonForZip_after_fetch _ _ _ _ H).
    destruct j; try reflexivity. now elim Hj.
  - intros lat lon H. rewrite (findNearestStation_after_fetch _ _ _ _ _ H).
    destruct j; try reflexivity. now elim Hj.
  - intros station H. rewrite (getLatestObservation_after_fetch _ _ _ _ H).
    destruct j; try reflexivity. now elim Hj.
Qed.

Lemma extractors_panic_on_non_map_witness :
  latLonForZip "20500" (constEnv (Response (Document JNull))) freshWorld
    = (Panic (TypeAssertionError TNil TMap),
       requested (geocodeURL "20500") freshWorld) /\
  findNearestStation 0%float 0%float
    (constEnv (Response (Document (JArr [])))) freshWorld
    = (Panic (TypeAssertionError TSlice TMap),
       requested (pointsURL (constEnv (Response (Document (JArr []))))
                    0%float 0%float) freshWorld) /\
  getLatestObservation "KDCA"
    (constEnv (Response (Document (JStr "Not Found")))) freshWorld
    = (Panic (TypeAssertionError TString TMap),
       requested (observationURL "KDCA") freshWorld).
Proof.
  split; [|split].
  - apply (proj1 (extractors_panic_on_non_map
                    (constEnv (Response (Document JNull))) freshWorld JNull
                    ltac:(discriminate)) "20500" eq_refl).
  - apply (proj1 (proj2 (extractors_panic_on_non_map
                    (constEnv (Response (Document (JArr [])))) freshWorld
                    (JArr []) ltac:(discriminate))) 0%float 0%float eq_refl).
  - apply (proj2 (proj2 (extractors_panic_on_non_map
                    (constEnv (Response (Document (JStr "Not Found"))))
                    freshWorld (JStr "Not Found") ltac:(discriminate)))
             "KDCA" eq_refl).
Defined.

(** X3. Whatever answer it gets and whether it returns or panics, each
    extractor makes exactly one request, for its own URL, and writes to
    standard output nothing but the diagnostic line of a failed fetch. *)
Theorem extractors_one_request env w :
  (forall zip,
     snd (latLonForZip zip env w) =
       mkWorld (requests w ++ [geocodeURL zip])%list
         (stdout w ++
            diagnostic
              (httpGet env (List.length (requests w)) (geocodeURL zip)))%list)
  /\
  (forall lat lon,
     snd (findNearestStation lat lon env w) =
       mkWorld (requests w ++ [pointsURL env lat lon])%list
         (stdout w ++
            diagnostic
              (httpGet env (List.length (requests w))
                 (pointsURL env lat lon)))%list)
  /\
  (forall station,
     snd (getLatestObservation station env w) =
       mkWorld (requests w ++ [observationURL station])%list
         (stdout w ++
            diagnostic
              (httpGet env (List.length (requests w))
                 (observationURL station)))%list).
Proof.
  split; [|split]; intros.
  - apply latLonForZip_world.
  - apply findNearestStation_world.
  - apply getLatestObservation_world.
Qed.

(** X4. When the geocoding response is a map without "records", or its
    first record is a map without "fields", [latLonForZip] returns the zero
    location: no panic, no error. *)
Theorem latLonForZip_zero_location zip env w m :
  httpGet env (List.length (requests w)) (geocodeURL zip)
    = Response (Document (JObj m)) ->
  wf (JObj m) = true ->
  mapLookup "records" m = None \/
  (exists rec rest,
     mapLookup "records" m = Some (JArr (JObj rec :: rest)) /\
     mapLookup "fields" rec = None) ->
  latLonForZip zip env w =
    (Ret (LocationData.mk "" "" "" 0%float 0%float),
     requested (geocodeURL zip) w).
Proof.
  intros Hget Hwf [Hrecs | [rec [rest [Hrecs Hfields]]]].
  - destruct (wf_JObj _ Hwf) as [Hnm _].
    rewrite (latLonForZip_after_fetch _ _ _ _ Hget).
    unfold bind at 1. cbn [assertMap ret].
    rewrite (response_loop _ _ _ _ Hnm), Hrecs. reflexivity.
  - rewrite (latLonForZip_first_record _ _ _ _ _ _ Hget Hwf Hrecs), Hfields.
    reflexivity.
Qed.

Lemma latLonForZip_zero_location_witness :
  latLonForZip "99999"
    (constEnv (Response (Document (JObj [("nhits", JNum 0%float)]))))
    freshWorld
  = (Ret (LocationData.mk "" "" "" 0%float 0%float),
     requested (geocodeURL "99999") freshWorld).
Proof.
  apply (latLonForZip_zero_location "99999"
           (constEnv (Response (Document (JObj [("nhits", JNum 0%float)]))))
           freshWorld [("nhits", JNum 0%float)]);
    [reflexivity | reflexivity | left; reflexivity].
Defined.

(** X5. A geocoding response of the wrong shape below the top level makes
    [latLonForZip] panic at the assertion concerned: "records" that is not
    an array, a first record that is not a map, "fields" that is not a
    map. *)
Theorem latLonForZip_wrong_shape zip env w m :
  httpGet env (List.length (requests w)) (geocodeURL zip)
    = Response (Document (JObj m)) ->
  wf (JObj m) = true ->
  (forall v,
     mapLookup "records" m = Some v -> dynType v <> TSlice ->
     latLonForZip zip env w =
       (Panic (TypeAssertionError (dynType v) TSlice),
        requested (geocodeURL zip) w))
  /\
  (forall r0 rest,
     mapLookup "records" m = Some (JArr (r0 :: rest)) -> dynType r0 <> TMap ->
     latLonForZip zip env w =
       (Panic (TypeAssertionError (dynType r0) TMap),
        requested (geocodeURL zip) w))
  /\
  (forall rec rest v,
     mapLookup "records" m = Some (JArr (JObj rec :: rest)) ->
     mapLookup "fields" rec = Some v -> dynType v <> TMap ->
     latLonForZip zip env w =
       (Panic (TypeAssertionError (dynType v) TMap),
        requested (geocodeURL zip) w)).
Proof.
  intros Hget Hwf. split; [|split].
  - intros v Hrecs Hv.
    rewrite (latLonForZip_records _ _ _ _ _ Hget Hwf Hrecs).
    destruct v; try reflexivity. now elim Hv.
  - intros r0 rest Hrecs Hr0.
    rewrite (latLonForZip_records _ _ _ _ _ Hget Hwf Hrecs).
    destruct r0; try reflexivity. now elim Hr0.
  - intros rec rest v Hrecs Hfields Hv.
    rewrite (latLonForZip_first_record _ _ _ _ _ _ Hget Hwf Hrecs), Hfields.
    destruct v; try reflexivity. now elim Hv.
Qed.

Lemma latLonForZip_wrong_shape_witness :
  latLonForZip "20500"
    (constEnv (Response (Document (JObj [("records", JNull)])))) freshWorld
  = (Panic (TypeAssertionError TNil TSlice),
     requested (geocodeURL "20500") freshWorld).
Proof.
  apply (proj1 (latLonForZip_wrong_shape "20500"
                  (constEnv (Response (Document (JObj [("records", JNull)]))))
                  freshWorld [("records", JNull)] eq_refl eq_refl)
           JNull eq_refl ltac:(discriminate)).
Defined.

(** X6. When one of the five keys of "fields" is present with a value of
    the wrong type (city, zip, state not a string; latitude, longitude not
    a number), [latLonForZip] panics at a string or float64 assertion,
    whatever the other fields hold and in whatever order the map is
    iterated. *)
Theorem latLonForZip_ill_typed_field zip env w m rec rest f :
  httpGet env (List.length (requests w)) (geocodeURL zip)
    = Response (Document (JObj m)) ->
  wf (JObj m) = true ->
  mapLookup "records" m = Some (JArr (JObj rec :: rest)) ->
  mapLookup "fields" rec = Some (JObj f) ->
  fieldsWellTyped f = false ->
  exists dyn want,
    latLonForZip zip env w =
      (Panic (TypeAssertionError dyn want), requested (geocodeURL zip) w) /\
    (want = TString \/ want = TFloat64).
Proof.
  intros Hget Hwf Hrecs Hfields Hbad.
  rewrite (latLonForZip_first_record _ _ _ _ _ _ Hget Hwf Hrecs), Hfields.
  unfold bind at 1. cbn [assertMap ret].
  destruct (fieldsWellTyped_false _ Hbad) as [k [v [Hk Hill]]].
  apply (fields_loop_panics f k v Hk Hill).
  change k with (fst (k, v)). apply in_map. now apply mapLookup_In.
Qed.

Lemma latLonForZip_ill_typed_field_witness :
  exists dyn want,
    latLonForZip "20500"
      (constEnv (Response (Document
         (geocodingResponse [("city", JStr "Washington");
                             ("latitude", JStr "38.9")]))))
      freshWorld
    = (Panic (TypeAssertionError dyn want),
       requested (geocodeURL "20500") freshWorld) /\
    (want = TString \/ want = TFloat64).
Proof.
  apply (latLonForZip_ill_typed_field "20500"
           (constEnv (Response (Document
              (geocodingResponse [("city", JStr "Washington");
                                  ("latitude", JStr "38.9")]))))
           freshWorld
           [("records",
             JArr [JObj [("fields",
                          JObj [("city", JStr "Washington");
                                ("latitude", JStr "38.9")])]])]
           [("fields",
             JObj [("city", JStr "Washington"); ("latitude", JStr "38.9")])]
           []
           [("city", JStr "Washington"); ("latitude", JStr "38.9")]);
    reflexivity.
Defined.

(** ** The resolver and the fetcher case by case *)

Lemma stationsStep_head x rest env w :
  stationsStep (Some (JArr (x :: rest))) env w =
    (s <- assertString x ;;
     id <- sliceFrom s (strlen s - 4) ;;
     ret id) env w.
Proof.
  destruct x; try reflexivity. rewrite stationsStep_string.
  unfold bind. cbn [assertString ret]. reflexivity.
Qed.

Lemma sliceFrom_short s env w :
  String.length s < 4 ->
  sliceFrom s (strlen s - 4) env w =
    (Panic (SliceBoundsOutOfRange (strlen s - 4) (strlen s)), w).
Proof.
  intro H. unfold sliceFrom, strlen.
  destruct (Z.ltb_spec (Z.of_nat (String.length s) - 4) 0) as [_|Hge];
    [reflexivity | lia].
Qed.

Lemma sliceFrom_last4 s env w :
  4 <= String.length s ->
  sliceFrom s (strlen s - 4) env w =
    (Ret (substring (String.length s - 4) 4 s), w).
Proof.
  intro H. unfold sliceFrom, strlen.
  destruct (Z.ltb_spec (Z.of_nat (String.length s) - 4) 0) as [Hlt|_]; [lia|].
  destruct (Z.ltb_spec (Z.of_nat (String.length s))
              (Z.of_nat (String.length s) - 4)) as [Hlt|_]; [lia|].
  cbn [orb ret].
  replace (Z.to_nat (Z.of_nat (String.length s) - 4))
    with (String.length s - 4) by lia.
  replace (String.length s - (String.length s - 4)) with 4 by lia.
  reflexivity.
Qed.

Lemma sliceFrom_Ret_length s env w id w' :
  sliceFrom s (strlen s - 4) env w = (Ret id, w') -> String.length id = 4.
Proof.
  destruct (Nat.lt_ge_cases (String.length s) 4) as [Hlt|Hge].
  - rewrite (sliceFrom_short _ _ _ Hlt). discriminate.
  - rewrite (sliceFrom_last4 _ _ _ Hge). intros [= <- _].
    destruct (substring_tail s (String.length s - 4) ltac:(lia)) as [_ Hl].
    replace (String.length s - (String.length s - 4)) with 4 in Hl by lia.
    lia.
Qed.

(** What the resolver hands out is empty or four bytes long. *)
Lemma stationExtract_shape j env w id w' :
  (typedJSONData <- assertMap j ;;
   f <- forRangeRet typedJSONData (pointsBody typedJSONData) "" ;;
   match f with
   | Return r => ret r
   | Next stationID => ret stationID
   end) env w = (Ret id, w') ->
  id = "" \/ String.length id = 4.
Proof.
  intro H. apply bind_Ret_inv in H. destruct H as [m [w1 [_ H]]].
  apply bind_Ret_inv in H. destruct H as [f [w2 [Hloop Hf]]].
  assert (Hshape : match f with
                   | Next s => s = ""
                   | Return r => String.length r = 4
                   end).
  { revert Hloop.
    apply (forRangeRet_invariant (fun s => s = "")
             (fun r => String.length r = 4) (pointsBody m)); [|reflexivity].
    intros kv s env0 w0 f0 w0' Hs Hb. unfold pointsBody in Hb.
    destruct (fst kv =? "observationStations").
    - apply bind_Ret_inv in Hb. destruct Hb as [xs [w3 [_ Hb]]].
      revert Hb.
      apply (forRangeRet_invariant (fun s => s = "")
               (fun r => String.length r = 4) (stationsBody xs)); [|exact Hs].
      intros k s1 env1 w4 f1 w4' Hs1 Hb1. unfold stationsBody in Hb1.
      destruct (k =? 0)%Z.
      + apply bind_Ret_inv in Hb1. destruct Hb1 as [s2 [w5 [_ Hb1]]].
        apply bind_Ret_inv in Hb1. destruct Hb1 as [id2 [w6 [Hsl Hb1]]].
        inversion Hb1; subst. eapply sliceFrom_Ret_length; eauto.
      + inversion Hb1; subst. reflexivity.
    - inversion Hb; subst. reflexivity. }
  destruct f as [s|r]; inversion Hf; subst; auto.
Qed.

(** The observation the fetcher hands out is for the station it was
    asked about. *)
Lemma observationExtract_station station j env w o w' :
  (typedJSONData <- assertMap j ;;
   forRange typedJSONData observationBody
     (WeatherObservation.mk station 0%float)) env w = (Ret o, w') ->
  WeatherObservation.Station o = station.
Proof.
  intro H. apply bind_Ret_inv in H. destruct H as [m [w1 [_ H]]].
  revert H.
  apply (forRange_invariant
           (fun o => WeatherObservation.Station o = station) observationBody);
    [|reflexivity].
  intros [k v] o1 env1 w2 o1' w2' Ho1 Hb. unfold observationBody in Hb.
  destruct (k =? "properties"); [|unfold ret in Hb; injection Hb as <- _; exact Ho1].
  apply bind_Ret_inv in Hb. destruct Hb as [p [w3 [_ Hb]]]. revert Hb.
  apply (forRange_invariant
           (fun o => WeatherObservation.Station o = station) propsBody);
    [|exact Ho1].
  intros [k2 v2] o2 env2 w4 o2' w4' Ho2 Hb2. unfold propsBody in Hb2.
  destruct (k2 =? "temperature"); [|unfold ret in Hb2; injection Hb2 as <- _; exact Ho2].
  apply bind_Ret_inv in Hb2. destruct Hb2 as [t [w5 [_ Hb2]]]. revert Hb2.
  apply (forRange_invariant
           (fun o => WeatherObservation.Station o = station) tempBody);
    [|exact Ho2].
  intros [k3 v3] o3 env3 w6 o3' w6' Ho3 Hb3. unfold tempBody in Hb3.
  destruct (k3 =? "value"); [|unfold ret in Hb3; injection Hb3 as <- _; exact Ho3].
  apply bind_Ret_inv in Hb3. destruct Hb3 as [x [w7 [_ Hb3]]].
  unfold ret in Hb3. injection Hb3 as <- _. exact Ho3.
Qed.

(** An extractor that returns had a document to work on. *)
Lemma latLonForZip_returns zip env w loc w1 :
  latLonForZip zip env w = (Ret loc, w1) ->
  w1 = requested (geocodeURL zip) w.
Proof.
  intro H. pose proof (latLonForZip_world zip env w) as Hw.
  rewrite H in Hw. cbn [snd] in Hw. subst w1.
  destruct (httpGet env (List.length (requests w)) (geocodeURL zip))
    as [err|[err|j]] eqn:E; cbn [diagnostic].
  - unfold latLonForZip, bind in H.
    rewrite getJSONData_failed in H by now rewrite E. discriminate.
  - unfold latLonForZip, bind in H.
    rewrite getJSONData_failed in H by now rewrite E. discriminate.
  - unfold requested. now rewrite app_nil_r.
Qed.

Lemma findNearestStation_returns lat lon env w id w1 :
  findNearestStation lat lon env w = (Ret id, w1) ->
  w1 = requested (pointsURL env lat lon) w /\
  (id = "" \/ String.length id = 4).
Proof.
  intro H.
  destruct (httpGet env (List.length (requests w)) (pointsURL env lat lon))
    as [err|[err|j]] eqn:E.
  - unfold findNearestStation, bind, sprintfPoints in H.
    rewrite getJSONData_failed in H by now rewrite E. discriminate.
  - unfold findNearestStation, bind, sprintfPoints in H.
    rewrite getJSONData_failed in H by now rewrite E. discriminate.
  - rewrite (findNearestStation_after_fetch _ _ _ _ _ E) in H. split.
    + destruct (pure_stationExtract j) as [o Ho]. rewrite Ho in H.
      now inversion H.
    + eapply stationExtract_shape; eauto.
Qed.

Lemma getLatestObservation_returns station env w o w1 :
  getLatestObservation station env w = (Ret o, w1) ->
  w1 = requested (observationURL station) w /\
  WeatherObservation.Station o = station.
Proof.
  intro H.
  destruct (httpGet env (List.length (requests w)) (observationURL station))
    as [err|[err|j]] eqn:E.
  - unfold getLatestObservation, bind in H.
    rewrite getJSONData_failed in H by now rewrite E. discriminate.
  - unfold getLatestObservation, bind in H.
    rewrite getJSONData_failed in H by now rewrite E. discriminate.
  - rewrite (getLatestObservation_after_fetch _ _ _ _ E) in H. split.
    + destruct (pure_observationExtract station j) as [o' Ho].
      rewrite Ho in H. now inversion H.
    + eapply observationExtract_station; eauto.
Qed.

(** X7. A stations response whose "observationStations" is not an array,
    or whose first station is not a string, makes [findNearestStation]
    panic at the assertion concerned. *)
Theorem findNearestStation_wrong_shape lat lon env w m :
  httpGet env (List.length (requests w)) (pointsURL env lat lon)
    = Response (Document (JObj m)) ->
  wf (JObj m) = true ->
  (forall v,
     mapLookup "observationStations" m = Some v -> dynType v <> TSlice ->
     findNearestStation lat lon env w =
       (Panic (TypeAssertionError (dynType v) TSlice),
        requested (pointsURL env lat lon) w))
  /\
  (forall x rest,
     mapLookup "observationStations" m = Some (JArr (x :: rest)) ->
     dynType x <> TString ->
     findNearestStation lat lon env w =
       (Panic (TypeAssertionError (dynType x) TString),
        requested (pointsURL env lat lon) w)).
Proof.
  intros Hget Hwf. split.
  - intros v Hst Hv.
    rewrite (findNearestStation_document _ _ _ _ _ Hget Hwf), Hst.
    destruct v; try reflexivity. now elim Hv.
  - intros x rest Hst Hx.
    rewrite (findNearestStation_document _ _ _ _ _ Hget Hwf), Hst.
    rewrite stationsStep_head.
    destruct x; try reflexivity. now elim Hx.
Qed.

Lemma findNearestStation_wrong_shape_witness :
  findNearestStation 0%float 0%float
    (constEnv (Response (Document
       (JObj [("observationStations", JArr [JNull])])))) freshWorld
  = (Panic (TypeAssertionError TNil TString),
     requested
       (pointsURL (constEnv (Response (Document
                     (JObj [("observationStations", JArr [JNull])]))))
          0%float 0%float) freshWorld).
Proof.
  apply (proj2 (findNearestStation_wrong_shape 0%float 0%float
                  (constEnv (Response (Document
                     (JObj [("observationStations", JArr [JNull])]))))
                  freshWorld [("observationStations", JArr [JNull])]
                  eq_refl eq_refl)
           JNull [] eq_refl ltac:(discriminate)).
Defined.

(** X8. When the first station is a string of fewer than four bytes, the
    slice [stationID[len(stationID)-4:]] has a negative lower bound and
    [findNearestStation] panics with slice bounds out of range. *)
Theorem findNearestStation_short_string lat lon env w m s rest :
  httpGet env (List.length (requests w)) (pointsURL env lat lon)
    = Response (Document (JObj m)) ->
  wf (JObj m) = true ->
  mapLookup "observationStations" m = Some (JArr (JStr s :: rest)) ->
  String.length s < 4 ->
  findNearestStation lat lon env w =
    (Panic (SliceBoundsOutOfRange (strlen s - 4) (strlen s)),
     requested (pointsURL env lat lon) w).
Proof.
  intros Hget Hwf Hst Hlen.
  rewrite (findNearestStation_document _ _ _ _ _ Hget Hwf), Hst.
  rewrite stationsStep_string. unfold bind.
  now rewrite (sliceFrom_short _ _ _ Hlen).
Qed.

Lemma findNearestStation_short_string_witness :
  findNearestStation 0%float 0%float
    (constEnv (Response (Document
       (JObj [("observationStations", JArr [JStr ""])])))) freshWorld
  = (Panic (SliceBoundsOutOfRange (-4) 0),
     requested
       (pointsURL (constEnv (Response (Document
                     (JObj [("observationStations", JArr [JStr ""])]))))
          0%float 0%float) freshWorld).
Proof.
  apply (findNearestStation_short_string 0%float 0%float
           (constEnv (Response (Document
              (JObj [("observationStations", JArr [JStr ""])]))))
           freshWorld [("observationStations", JArr [JStr ""])] "" []);
    [reflexivity | reflexivity | reflexivity | simpl; lia].
Defined.

(** X9. Whenever [findNearestStation] returns, the identifier it returns
    is the empty string or exactly four bytes long, one request was made
    and nothing was printed. *)
Theorem findNearestStation_result_shape lat lon env w id w' :
  findNearestStation lat lon env w = (Ret id, w') ->
  (id = "" \/ String.length id = 4) /\
  w' = requested (pointsURL env lat lon) w.
Proof.
  intro H. destruct (findNearestStation_returns _ _ _ _ _ _ H). tauto.
Qed.

Lemma findNearestStation_result_shape_witness :
  findNearestStation 38.9%float (-77.03)%float scenarioEnv
    (mkWorld [geocodeURL "20500"] [])
  = (Ret "KDCA",
     mkWorld [geocodeURL "20500";
              pointsURL scenarioEnv 38.9%float (-77.03)%float] []) /\
  ("KDCA" = "" \/ String.length "KDCA" = 4) /\
  mkWorld [geocodeURL "20500";
           pointsURL scenarioEnv 38.9%float (-77.03)%float] []
  = requested (pointsURL scenarioEnv 38.9%float (-77.03)%float)
      (mkWorld [geocodeURL "20500"] []).
Proof.
  split; [reflexivity|].
  apply (findNearestStation_result_shape 38.9%float (-77.03)%float
           scenarioEnv (mkWorld [geocodeURL "20500"] []) "KDCA").
  reflexivity.
Defined.

(** X10. Only the first station counts: two stations responses whose
    "observationStations" arrays start with the same element end
    [findNearestStation] alike, whatever follows in the arrays. *)
Theorem findNearestStation_first_station_only
    lat lon env w m lat' lon' env' w' m' x rest rest' :
  httpGet env (List.length (requests w)) (pointsURL env lat lon)
    = Response (Document (JObj m)) ->
  wf (JObj m) = true ->
  mapLookup "observationStations" m = Some (JArr (x :: rest)) ->
  httpGet env' (List.length (requests w')) (pointsURL env' lat' lon')
    = Response (Document (JObj m')) ->
  wf (JObj m') = true ->
  mapLookup "observationStations" m' = Some (JArr (x :: rest')) ->
  fst (findNearestStation lat lon env w) =
  fst (findNearestStation lat' lon' env' w').
Proof.
  intros Hget Hwf Hst Hget' Hwf' Hst'.
  rewrite (findNearestStation_document _ _ _ _ _ Hget Hwf), Hst.
  rewrite (findNearestStation_document _ _ _ _ _ Hget' Hwf'), Hst'.
  rewrite !stationsStep_head. apply pure_fst.
  repeat (apply pure_bind; [|intro]); auto with pure.
Qed.

Lemma findNearestStation_first_station_only_witness :
  fst (findNearestStation 38.9%float (-77.03)%float
         (constEnv (Response (Document stationsResponse))) freshWorld) =
  fst (findNearestStation 0%float 0%float
         (constEnv (Response (Document
            (JObj [("observationStations",
                    JArr [JStr "https://api.weather.gov/stations/KDCA";
                          JNull; JNum 1%float])]))))
         freshWorld).
Proof.
  apply (findNearestStation_first_station_only
           38.9%float (-77.03)%float
           (constEnv (Response (Document stationsResponse))) freshWorld
           [("observationStations",
             JArr [JStr "https://api.weather.gov/stations/KDCA"])]
           0%float 0%float
           (constEnv (Response (Document
              (JObj [("observationStations",
                      JArr [JStr "https://api.weather.gov/stations/KDCA";
                            JNull; JNum 1%float])]))))
           freshWorld
           [("observationStations",
             JArr [JStr "https://api.weather.gov/stations/KDCA";
                   JNull; JNum 1%float])]
           (JStr "https://api.weather.gov/stations/KDCA")
           [] [JNull; JNum 1%float]);
    reflexivity.
Defined.

(** X11. When the observation response carries a number under
    "properties.temperature.value", [getLatestObservation] returns the
    observation with that temperature and the station it was given. *)
Theorem getLatestObservation_value station env w m p t x :
  httpGet env (List.length (requests w)) (observationURL station)
    = Response (Document (JObj m)) ->
  wf (JObj m) = true ->
  mapLookup "properties" m = Some (JObj p) ->
  mapLookup "temperature" p = Some (JObj t) ->
  mapLookup "value" t = Some (JNum x) ->
  getLatestObservation station env w =
    (Ret (WeatherObservation.mk station x),
     requested (observationURL station) w).
Proof.
  intros Hget Hwf Hp Ht Hv.
  rewrite (getLatestObservation_temperature _ _ _ _ _ _ Hget Hwf Hp Ht).
  now rewrite Hv.
Qed.

Lemma getLatestObservation_value_witness :
  getLatestObservation "KIAD"
    (constEnv (Response (Document
       (JObj [("id", JStr "obs");
              ("properties",
               JObj [("timestamp", JStr "now");
                     ("temperature",
                      JObj [("unitCode", JStr "wmoUnit:degC");
                            ("value", JNum (-3.5)%float)])])]))))
    freshWorld
  = (Ret (WeatherObservation.mk "KIAD" (-3.5)%float),
     requested (observationURL "KIAD") freshWorld).
Proof.
  apply (getLatestObservation_value "KIAD"
           (constEnv (Response (Document
              (JObj [("id", JStr "obs");
                     ("properties",
                      JObj [("timestamp", JStr "now");
                            ("temperature",
                             JObj [("unitCode", JStr "wmoUnit:degC");
                                   ("value", JNum (-3.5)%float)])])]))))
           freshWorld
           [("id", JStr "obs");
            ("properties",
             JObj [("timestamp", JStr "now");
                   ("temperature",
                    JObj [("unitCode", JStr "wmoUnit:degC");
                          ("value", JNum (-3.5)%float)])])]
           [("timestamp", JStr "now");
            ("temperature",
             JObj [("unitCode", JStr "wmoUnit:degC");
                   ("value", JNum (-3.5)%float)])]
           [("unitCode", JStr "wmoUnit:degC"); ("value", JNum (-3.5)%float)]
           (-3.5)%float);
    reflexivity.
Defined.

(** X12. An observation response of the wrong shape makes
    [getLatestObservation] panic at the assertion concerned: "properties"
    that is not a map, "temperature" that is not a map, "value" that is not
    a number. *)
Theorem getLatestObservation_wrong_shape station env w m :
  httpGet env (List.length (requests w)) (observationURL station)
    = Response (Document (JObj m)) ->
  wf (JObj m) = true ->
  (forall v,
     mapLookup "properties" m = Some v -> dynType v <> TMap ->
     getLatestObservation station env w =
       (Panic (TypeAssertionError (dynType v) TMap),
        requested (observationURL station) w))
  /\
  (forall p v,
     mapLookup "properties" m = Some (JObj p) ->
     mapLookup "temperature" p = Some v -> dynType v <> TMap ->
     getLatestObservation station env w =
       (Panic (TypeAssertionError (dynType v) TMap),
        requested (observationURL station) w))
  /\
  (forall p t v,
     mapLookup "properties" m = Some (JObj p) ->
     mapLookup "temperature" p = Some (JObj t) ->
     mapLookup "value" t = Some v -> dynType v <> TFloat64 ->
     getLatestObservation station env w =
       (Panic (TypeAssertionError (dynType v) TFloat64),
        requested (observationURL station) w)).
Proof.
  intros Hget Hwf. split; [|split].
  - intros v Hp Hv.
    rewrite (getLatestObservation_document _ _ _ _ Hget Hwf), Hp.
    destruct v; try reflexivity. now elim Hv.
  - intros p v Hp Ht Hv.
    destruct (wf_JObj _ Hwf) as [_ Hsub].
    destruct (wf_JObj _ (Hsub _ _ Hp)) as [Hnp _].
    rewrite (getLatestObservation_document _ _ _ _ Hget Hwf), Hp.
    unfold bind at 1. cbn [assertMap ret].
    rewrite (props_loop _ _ _ _ Hnp), Ht.
    destruct v; try reflexivity. now elim Hv.
  - intros p t v Hp Ht Hval Hv.
    rewrite (getLatestObservation_temperature _ _ _ _ _ _ Hget Hwf Hp Ht), Hval.
    destruct v; try reflexivity. now elim Hv.
Qed.

Lemma getLatestObservation_wrong_shape_witness :
  getLatestObservation "KDCA"
    (constEnv (Response (Document
       (JObj [("properties",
               JObj [("temperature", JObj [("value", JStr "21.1")])])]))))
    freshWorld
  = (Panic (TypeAssertionError TString TFloat64),
     requested (observationURL "KDCA") freshWorld).
Proof.
  apply (proj2 (proj2 (getLatestObservation_wrong_shape "KDCA"
           (constEnv (Response (Document
              (JObj [("properties",
                      JObj [("temperature",
                             JObj [("value", JStr "21.1")])])]))))
           freshWorld
           [("properties",
             JObj [("temperature", JObj [("value", JStr "21.1")])])]
           eq_refl eq_refl))
           [("temperature", JObj [("value", JStr "21.1")])]
           [("value", JStr "21.1")] (JStr "21.1")
           eq_refl eq_refl eq_refl ltac:(discriminate)).
Defined.

(** X13. Whenever [getLatestObservation] returns, the observation names
    the station it was given, one request was made and nothing was
    printed. *)
Theorem getLatestObservation_keeps_station station env w o w' :
  getLatestObservation station env w = (Ret o, w') ->
  WeatherObservation.Station o = station /\
  w' = requested (observationURL station) w.
Proof.
  intro H. destruct (getLatestObservation_returns _ _ _ _ _ H). tauto.
Qed.

Lemma getLatestObservation_keeps_station_witness :
  getLatestObservation "KDCA"
    (constEnv (Response (Document observationResponse))) freshWorld
  = (Ret (WeatherObservation.mk "KDCA" 21.1%float),
     mkWorld [observationURL "KDCA"] []) /\
  WeatherObservation.Station (WeatherObservation.mk "KDCA" 21.1%float)
    = "KDCA" /\
  mkWorld [observationURL "KDCA"] []
    = requested (observationURL "KDCA") freshWorld.
Proof.
  split; [reflexivity|].
  apply (getLatestObservation_keeps_station "KDCA"
           (constEnv (Response (Document observationResponse))) freshWorld
           (WeatherObservation.mk "KDCA" 21.1%float)).
  reflexivity.
Defined.

(** ** The orchestrator and the handler *)

(** What a lookup leaves behind, whether it returns or panics. *)
Lemma getObservationForZip_trace zip env w o w' :
  getObservationForZip zip env w = (o, w') ->
  match o with
  | Ret r =>
      exists lat lon,
        requests w' =
          (requests w ++
             [geocodeURL zip; pointsURL env lat lon;
              observationURL (LookupData.Station r)])%list /\
        stdout w' = stdout w /\
        (LookupData.Station r = "" \/
         String.length (LookupData.Station r) = 4)
  | Panic _ =>
      exists rest,
        requests w' = (requests w ++ geocodeURL zip :: rest)%list /\
        List.length rest <= 2
  end.
Proof.
  unfold getObservationForZip, bind.
  destruct (latLonForZip zip env w) as [[loc|e1] w1] eqn:E1.
  - pose proof (latLonForZip_returns _ _ _ _ _ E1) as Hw1.
    destruct (findNearestStation (LocationData.Latitude loc)
                (LocationData.Longitude loc) env w1) as [[id|e2] w2] eqn:E2.
    + destruct (findNearestStation_returns _ _ _ _ _ _ E2) as [Hw2 Hid].
      destruct (getLatestObservation id env w2) as [[ob|e3] w3] eqn:E3.
      * destruct (getLatestObservation_returns _ _ _ _ _ E3) as [Hw3 Hst].
        intros [= <- <-]. cbn [LookupData.Station]. rewrite Hst.
        exists (LocationData.Latitude loc), (LocationData.Longitude loc).
        subst w3 w2 w1. unfold requested. cbn [requests stdout].
        rewrite <- !app_assoc. auto.
      * intros [= <- <-].
        pose proof (getLatestObservation_world id env w2) as Hw3.
        rewrite E3 in Hw3. cbn [snd] in Hw3.
        exists [pointsURL env (LocationData.Latitude loc)
                  (LocationData.Longitude loc); observationURL id].
        subst w3 w2 w1. unfold requested. cbn [requests stdout].
        rewrite <- !app_assoc. auto.
    + intros [= <- <-].
      pose proof (findNearestStation_world (LocationData.Latitude loc)
                    (LocationData.Longitude loc) env w1) as Hw2.
      rewrite E2 in Hw2. cbn [snd] in Hw2.
      exists [pointsURL env (LocationData.Latitude loc)
                (LocationData.Longitude loc)].
      subst w2 w1. unfold requested. cbn [requests stdout].
      rewrite <- !app_assoc. auto.
  - intros [= <- <-].
    pose proof (latLonForZip_world zip env w) as Hw1.
    rewrite E1 in Hw1. cbn [snd] in Hw1.
    exists []. subst w1. cbn [requests]. auto.
Qed.

Lemma findNearestStation_none lat lon env w m :
  httpGet env (List.length (requests w)) (pointsURL env lat lon)
    = Response (Document (JObj m)) ->
  wf (JObj m) = true ->
  mapLookup "observationStations" m = None \/
  mapLookup "observationStations" m = Some (JArr []) ->
  findNearestStation lat lon env w =
    (Ret "", requested (pointsURL env lat lon) w).
Proof.
  intros Hget Hwf Hst.
  rewrite (findNearestStation_document _ _ _ _ _ Hget Hwf).
  destruct Hst as [-> | ->]; reflexivity.
Qed.

Lemma getLatestObservation_default station env w m :
  httpGet env (List.length (requests w)) (observationURL station)
    = Response (Document (JObj m)) ->
  wf (JObj m) = true ->
  valueAbsent m ->
  getLatestObservation station env w =
    (Ret (WeatherObservation.mk station 0%float),
     requested (observationURL station) w).
Proof.
  intros Hget Hwf [Hp | [p [Hp [Ht | [t [Ht Hv]]]]]].
  - rewrite (getLatestObservation_document _ _ _ _ Hget Hwf). now rewrite Hp.
  - rewrite (getLatestObservation_document _ _ _ _ Hget Hwf), Hp.
    destruct (wf_JObj _ Hwf) as [_ Hsub].
    destruct (wf_JObj _ (Hsub _ _ Hp)) as [Hnp _].
    unfold bind. cbn [assertMap ret].
    rewrite (props_loop _ _ _ _ Hnp). now rewrite Ht.
  - rewrite (getLatestObservation_temperature _ _ _ _ _ _ Hget Hwf Hp Ht).
    now rewrite Hv.
Qed.

(** X14. A lookup makes at least one and at most three requests, the
    first of them the geocoding request for the zip it was given, whatever
    the answers and whether it returns or panics. *)
Theorem getObservationForZip_requests zip env w :
  exists rest,
    requests (snd (getObservationForZip zip env w)) =
      (requests w ++ geocodeURL zip :: rest)%list /\
    List.length rest <= 2.
Proof.
  destruct (getObservationForZip zip env w) as [o w'] eqn:E.
  pose proof (getObservationForZip_trace _ _ _ _ _ E) as H. cbn [snd].
  destruct o as [r|e].
  - destruct H as [lat [lon [Hr _]]]. eexists. split; [exact Hr|]. simpl. lia.
  - exact H.
Qed.

(** X15. Whenever a lookup returns, it made exactly three requests: the
    geocoding request for its zip, a stations request, and the observation
    request for the very station it reports; that station is empty or four
    bytes long, and nothing was printed. *)
Theorem getObservationForZip_returns zip env w r w' :
  getObservationForZip zip env w = (Ret r, w') ->
  exists lat lon,
    requests w' =
      (requests w ++
         [geocodeURL zip; pointsURL env lat lon;
          observationURL (LookupData.Station r)])%list /\
    stdout w' = stdout w /\
    (LookupData.Station r = "" \/ String.length (LookupData.Station r) = 4).
Proof. intro H. exact (getObservationForZip_trace _ _ _ _ _ H). Qed.

Lemma getObservationForZip_returns_witness :
  getObservationForZip "20500" scenarioEnv freshWorld
  = (Ret (LookupData.mk "20500" "Washington" "DC" 21.1%float "KDCA"),
     mkWorld
       [geocodeURL "20500"; pointsURL scenarioEnv 38.9%float (-77.03)%float;
        observationURL "KDCA"] []) /\
  exists lat lon,
    [geocodeURL "20500"; pointsURL scenarioEnv 38.9%float (-77.03)%float;
     observationURL "KDCA"] =
      ([] ++ [geocodeURL "20500"; pointsURL scenarioEnv lat lon;
              observationURL "KDCA"])%list /\
    @nil string = [] /\
    ("KDCA" = "" \/ String.length "KDCA" = 4).
Proof.
  split; [reflexivity|].
  apply (getObservationForZip_returns "20500" scenarioEnv freshWorld
           (LookupData.mk "20500" "Washington" "DC" 21.1%float "KDCA")
           (mkWorld
              [geocodeURL "20500";
               pointsURL scenarioEnv 38.9%float (-77.03)%float;
               observationURL "KDCA"] [])).
  reflexivity.
Defined.

(** X16. A panic of the geocoder is the lookup's panic, and neither the
    stations nor the observation request is made: the geocoding request is
    the only one. *)
Theorem getObservationForZip_geocoder_panic zip env w e w1 :
  latLonForZip zip env w = (Panic e, w1) ->
  getObservationForZip zip env w = (Panic e, w1) /\
  requests w1 = (requests w ++ [geocodeURL zip])%list.
Proof.
  intro H. split.
  - unfold getObservationForZip, bind. now rewrite H.
  - pose proof (latLonForZip_world zip env w) as Hw. rewrite H in Hw.
    cbn [snd] in Hw. now subst w1.
Qed.

Lemma getObservationForZip_geocoder_panic_witness :
  getObservationForZip "00000"
    (constEnv (Response (Document (JObj [("records", JArr [])])))) freshWorld
  = (Panic (IndexOutOfRange 0 0), mkWorld [geocodeURL "00000"] []) /\
  requests (mkWorld [geocodeURL "00000"] []) = ([] ++ [geocodeURL "00000"])%list.
Proof.
  apply (getObservationForZip_geocoder_panic "00000"
           (constEnv (Response (Document (JObj [("records", JArr [])]))))
           freshWorld (IndexOutOfRange 0 0) (mkWorld [geocodeURL "00000"] [])).
  reflexivity.
Defined.

(** X17. No short cut on an empty geocoding result: when the geocoding
    response has no "records" (or its first record no "fields"), the
    lookup goes on with latitude 0 and longitude 0; if the stations response
    names no station and the observation for the empty station carries no
    temperature, it returns the all-zero [LookupData] after three
    requests. *)
Theorem getObservationForZip_zero_location zip env w mg ms mo :
  httpGet env (List.length (requests w)) (geocodeURL zip)
    = Response (Document (JObj mg)) ->
  wf (JObj mg) = true ->
  mapLookup "records" mg = None \/
  (exists rec rest,
     mapLookup "records" mg = Some (JArr (JObj rec :: rest)) /\
     mapLookup "fields" rec = None) ->
  httpGet env (S (List.length (requests w))) (pointsURL env 0%float 0%float)
    = Response (Document (JObj ms)) ->
  wf (JObj ms) = true ->
  mapLookup "observationStations" ms = None \/
  mapLookup "observationStations" ms = Some (JArr []) ->
  httpGet env (S (S (List.length (requests w)))) (observationURL "")
    = Response (Document (JObj mo)) ->
  wf (JObj mo) = true ->
  valueAbsent mo ->
  getObservationForZip zip env w =
    (Ret (LookupData.mk "" "" "" 0%float ""),
     mkWorld
       (requests w ++
          [geocodeURL zip; pointsURL env 0%float 0%float; observationURL ""])%list
       (stdout w)).
Proof.
  intros Hg Hwg Hrecs Hs Hws Hst Ho Hwo Hval.
  assert (E1 : latLonForZip zip env w =
               (Ret LocationData.zero, requested (geocodeURL zip) w)).
  { destruct Hrecs as [Hrecs | [rec [rest [Hrecs Hfields]]]].
    - destruct (wf_JObj _ Hwg) as [Hnm _].
      rewrite (latLonForZip_after_fetch _ _ _ _ Hg).
      unfold bind at 1. cbn [assertMap ret].
      now rewrite (response_loop _ _ _ _ Hnm), Hrecs.
    - now rewrite (latLonForZip_first_record _ _ _ _ _ _ Hg Hwg Hrecs), Hfields. }
  unfold getObservationForZip, bind. rewrite E1.
  cbn [LocationData.Latitude LocationData.Longitude LocationData.zero].
  rewrite (findNearestStation_none _ _ _ _ ms);
    [ | rewrite requested_length; exact Hs | exact Hws | exact Hst ].
  rewrite (getLatestObservation_default _ _ _ mo);
    [ | rewrite !requested_length; exact Ho | exact Hwo | exact Hval ].
  unfold ret, requested. cbn [requests stdout].
  rewrite <- !app_assoc. reflexivity.
Qed.

Lemma getObservationForZip_zero_location_witness :
  getObservationForZip "99999" (constEnv (Response (Document (JObj []))))
    freshWorld
  = (Ret (LookupData.mk "" "" "" 0%float ""),
     mkWorld
       [geocodeURL "99999";
        pointsURL (constEnv (Response (Document (JObj [])))) 0%float 0%float;
        observationURL ""] []).
Proof.
  apply (getObservationForZip_zero_location "99999"
           (constEnv (Response (Document (JObj [])))) freshWorld [] [] []);
    try reflexivity; left; reflexivity.
Defined.

(** X18. The lookup on well-shaped responses: with a well-typed "fields"
    in the first record, a first station of at least four bytes, and a
    number under "properties.temperature.value" in the observation of the
    station named by its last four bytes, the lookup returns the zip, city
    and state of "fields", that temperature and that station. *)
Theorem getObservationForZip_composes zip env w mg rec rest f ms s srest
    mo p t x :
  httpGet env (List.length (requests w)) (geocodeURL zip)
    = Response (Document (JObj mg)) ->
  wf (JObj mg) = true ->
  mapLookup "records" mg = Some (JArr (JObj rec :: rest)) ->
  mapLookup "fields" rec = Some (JObj f) ->
  fieldsWellTyped f = true ->
  httpGet env (S (List.length (requests w)))
      (pointsURL env (numberField "latitude" f 0%float)
         (numberField "longitude" f 0%float))
    = Response (Document (JObj ms)) ->
  wf (JObj ms) = true ->
  mapLookup "observationStations" ms = Some (JArr (JStr s :: srest)) ->
  4 <= String.length s ->
  httpGet env (S (S (List.length (requests w))))
      (observationURL (substring (String.length s - 4) 4 s))
    = Response (Document (JObj mo)) ->
  wf (JObj mo) = true ->
  mapLookup "properties" mo = Some (JObj p) ->
  mapLookup "temperature" p = Some (JObj t) ->
  mapLookup "value" t = Some (JNum x) ->
  getObservationForZip zip env w =
    (Ret (LookupData.mk (stringField "zip" f "") (stringField "city" f "")
            (stringField "state" f "") x
            (substring (String.length s - 4) 4 s)),
     mkWorld
       (requests w ++
          [geocodeURL zip;
           pointsURL env (numberField "latitude" f 0%float)
             (numberField "longitude" f 0%float);
           observationURL (substring (String.length s - 4) 4 s)])%list
       (stdout w)).
Proof.
  intros Hg Hwg Hrecs Hfields Htyped Hs Hws Hst Hlen Ho Hwo Hp Ht Hv.
  unfold getObservationForZip, bind.
  rewrite (latLonForZip_fields _ _ _ _ _ _ _ Hg Hwg Hrecs Hfields Htyped).
  cbn [LocationData.Latitude LocationData.Longitude LocationData.Zip
       LocationData.City LocationData.State].
  rewrite (findNearestStation_document _ _ _ _ ms);
    [ | rewrite requested_length; exact Hs | exact Hws ].
  rewrite Hst, stationsStep_string. unfold bind at 1.
  rewrite (sliceFrom_last4 _ _ _ Hlen). cbn [ret].
  rewrite (getLatestObservation_temperature _ _ _ mo p t);
    [ | rewrite !requested_length; exact Ho | exact Hwo | exact Hp | exact Ht ].
  rewrite Hv. unfold bind. cbn [assertFloat64 ret].
  unfold requested. cbn [requests stdout WeatherObservation.Temperature
    WeatherObservation.Station].
  rewrite <- !app_assoc. reflexivity.
Qed.

Lemma getObservationForZip_composes_witness :
  getObservationForZip "20500" scenarioEnv freshWorld =
    (Ret (LookupData.mk "20500" "Washington" "DC" 21.1%float "KDCA"),
     mkWorld
       [geocodeURL "20500"; pointsURL scenarioEnv 38.9%float (-77.03)%float;
        observationURL "KDCA"] []).
Proof.
  apply (getObservationForZip_composes "20500" scenarioEnv freshWorld
           [("records", JArr [JObj [("fields", JObj scenarioFields)]])]
           [("fields", JObj scenarioFields)] [] scenarioFields
           [("observationStations",
             JArr [JStr "https://api.weather.gov/stations/KDCA"])]
           "https://api.weather.gov/stations/KDCA" []
           [("properties",
             JObj [("temperature", JObj [("value", JNum 21.1%float)])])]
           [("temperature", JObj [("value", JNum 21.1%float)])]
           [("value", JNum 21.1%float)] 21.1%float);
    try reflexivity.
  simpl. lia.
Defined.

(** X19. [lookupHandler] parses its template before it looks anything up:
    when the template fails to parse it writes the error page text, panics
    with the parse error and makes no request at all; otherwise its first
    request is the geocoding request for the form's "zipCode" (the empty
    string when the form has none), and at most two more follow. *)
Theorem lookupHandler_requests site form env x :
  match parseFiles site "lookup" with
  | inl err =>
      lookupHandler site form env x =
        (Some (ErrorValue err),
         mkExchange (world x)
           (response x ++
              ["There was an error generating the template for this page!"])%list)
  | inr _ =>
      exists rest,
        requests (world (snd (lookupHandler site form env x))) =
          (requests (world x)
             ++ geocodeURL (formGet form "zipCode") :: rest)%list /\
        List.length rest <= 2
  end.
Proof.
  unfold lookupHandler.
  destruct (parseFiles site "lookup") as [err|templ]; [reflexivity|].
  cbv zeta.
  destruct (getObservationForZip (formGet form "zipCode") env (world x))
    as [o w'] eqn:E.
  pose proof (getObservationForZip_trace _ _ _ _ _ E) as H.
  destruct o as [r|e]; cbn [snd world].
  - destruct H as [lat [lon [Hr _]]]. eexists. split; [exact Hr|]. simpl. lia.
  - exact H.
Qed.

(** X20. Whenever [lookupHandler] returns, the template had parsed, the
    lookup for the form's "zipCode" returned, and what the handler wrote to
    the response is the template's rendering of exactly that lookup result;
    the world is the one the lookup left: three requests (the last for the
    station the result reports), nothing printed. *)
Theorem lookupHandler_returns site form env x x' :
  lookupHandler site form env x = (None, x') ->
  exists templ r w' lat lon,
    parseFiles site "lookup" = inr templ /\
    getObservationForZip (formGet form "zipCode") env (world x) = (Ret r, w') /\
    x' = mkExchange w' (response x ++ execute templ (Some r))%list /\
    requests w' =
      (requests (world x) ++
         [geocodeURL (formGet form "zipCode"); pointsURL env lat lon;
          observationURL (LookupData.Station r)])%list /\
    stdout w' = stdout (world x).
Proof.
  unfold lookupHandler.
  destruct (parseFiles site "lookup") as [err|templ]; [discriminate|].
  cbv zeta.
  destruct (getObservationForZip (formGet form "zipCode") env (world x))
    as [[r|e] w'] eqn:E; [|discriminate].
  intros [= <-].
  destruct (getObservationForZip_trace _ _ _ _ _ E) as [lat [lon [Hr [Hs _]]]].
  exists templ, r, w', lat, lon. auto.
Qed.

Lemma lookupHandler_returns_witness :
  lookupHandler
    (mkSite (fun _ => inr (mkTemplate (fun d =>
       match d with
       | Some r => [LookupData.ZipCode r; LookupData.City r;
                    LookupData.State r; LookupData.Station r]
       | None => []
       end))))
    [("zipCode", ["20500"])] scenarioEnv (mkExchange freshWorld [])
  = (None,
     mkExchange
       (mkWorld
          [geocodeURL "20500";
           pointsURL scenarioEnv 38.9%float (-77.03)%float;
           observationURL "KDCA"] [])
       ["20500"; "Washington"; "DC"; "KDCA"]) /\
  exists templ r w' lat lon,
    (inr (mkTemplate (fun d =>
       match d with
       | Some r => [LookupData.ZipCode r; LookupData.City r;
                    LookupData.State r; LookupData.Station r]
       | None => []
       end)) : string + Template) = inr templ /\
    getObservationForZip (formGet [("zipCode", ["20500"])] "zipCode")
      scenarioEnv freshWorld = (Ret r, w') /\
    mkExchange
      (mkWorld
         [geocodeURL "20500";
          pointsURL scenarioEnv 38.9%float (-77.03)%float;
          observationURL "KDCA"] [])
      ["20500"; "Washington"; "DC"; "KDCA"]
    = mkExchange w' ([] ++ execute templ (Some r))%list /\
    requests w' =
      ([] ++
         [geocodeURL (formGet [("zipCode", ["20500"])] "zipCode");
          pointsURL scenarioEnv lat lon;
          observationURL (LookupData.Station r)])%list /\
    stdout w' = [].
Proof.
  split; [reflexivity|].
  apply (lookupHandler_returns
           (mkSite (fun _ => inr (mkTemplate (fun d =>
              match d with
              | Some r => [LookupData.ZipCode r; LookupData.City r;
                           LookupData.State r; LookupData.Station r]
              | None => []
              end))))
           [("zipCode", ["20500"])] scenarioEnv (mkExchange freshWorld [])
           (mkExchange
              (mkWorld
                 [geocodeURL "20500";
                  pointsURL scenarioEnv 38.9%float (-77.03)%float;
                  observationURL "KDCA"] [])
              ["20500"; "Washington"; "DC"; "KDCA"])).
  reflexivity.
Defined.

(** X21. When the template has parsed and the geocoding fetch fails,
    [lookupHandler] panics with the run-time error of the assertion on
    [nil]; it has written nothing to the response, made that one request
    and printed the one diagnostic line. *)
Theorem lookupHandler_fetch_failed site form env x templ :
  parseFiles site "lookup" = inr templ ->
  fetchFailed
    (httpGet env (List.length (requests (world x)))
       (geocodeURL (formGet form "zipCode"))) = true ->
  lookupHandler site form env x =
    (Some (RuntimePanic (TypeAssertionError TNil TMap)),
     mkExchange
       (mkWorld
          (requests (world x) ++ [geocodeURL (formGet form "zipCode")])%list
          (stdout (world x) ++
             diagnostic
               (httpGet env (List.length (requests (world x)))
                  (geocodeURL (formGet form "zipCode"))))%list)
       (response x)).
Proof.
  intros Hparse Hfail. unfold lookupHandler. rewrite Hparse. cbv zeta.
  unfold getObservationForZip, bind at 1, latLonForZip, bind at 1.
  rewrite (getJSONData_failed _ _ _ Hfail). reflexivity.
Qed.

Lemma lookupHandler_fetch_failed_witness :
  lookupHandler (mkSite (fun _ => inr (mkTemplate (fun _ => ["page"]))))
    [] (constEnv (GetError "no route to host")) (mkExchange freshWorld [])
  = (Some (RuntimePanic (TypeAssertionError TNil TMap)),
     mkExchange
       (mkWorld [geocodeURL ""]
          [("There was an error making the request to the location info API: no route to host"
              ++ newline)%string])
       []).
Proof.
  apply (lookupHandler_fetch_failed
           (mkSite (fun _ => inr (mkTemplate (fun _ => ["page"]))))
           [] (constEnv (GetError "no route to host"))
           (mkExchange freshWorld []) (mkTemplate (fun _ => ["page"])));
    reflexivity.
Defined.
